(** * Fleet Manager API client (dataikuapi.fmclient and dataikuapi.fm)

    A shallow embedding of the Python client: the transport shim of
    [FMClient], the builder objects ([FMInstanceCreator],
    [FMInstanceSettingsTemplateCreator]) and the resource handles
    ([FMInstance], [FMInstanceSettingsTemplate]).

    Python objects that are mutated in place are modelled by state passing:
    a method of a mutable object is a computation in a state-and-exception
    monad whose state is the object (and, for a method that talks to the
    server, the outside world as well). *)

From Stdlib Require Import String Ascii ZArith List Bool Lia DecimalString.
Import ListNotations.
Local Open Scope list_scope.
Local Open Scope string_scope.
Set Warnings "-register-all".

(** ** Python values *)

(** The values the client handles: what [json.loads] produces and
    [json.dumps] accepts.  Dictionaries keep their insertion order, as
    Python's do.  (Floating-point numbers are left out.) *)
Inductive json : Type :=
| JNull
| JBool (b : bool)
| JInt (n : Z)
| JStr (s : string)
| JList (l : list json)
| JDict (d : list (string * json)).

Definition dict := list (string * json).

(** [d.get(k)] on the entries of a dictionary. *)
Fixpoint dict_get (k : string) (d : dict) : option json :=
  match d with
  | [] => None
  | (k', v) :: d' => if String.eqb k k' then Some v else dict_get k d'
  end.

(** [d[k] = v]: an existing key keeps its place, a new key goes last. *)
Fixpoint dict_set (k : string) (v : json) (d : dict) : dict :=
  match d with
  | [] => [(k, v)]
  | (k', v') :: d' =>
      if String.eqb k k' then (k, v) :: d' else (k', v') :: dict_set k v d'
  end.

(** [d.update(e)]. *)
Definition dict_update (e d : dict) : dict :=
  fold_left (fun acc kv => dict_set (fst kv) (snd kv) acc) e d.

(** Equality of dictionaries as Python's [==] sees it: the same keys with
    the same values, whatever the insertion order. *)
Definition dict_equiv (d1 d2 : dict) : Prop :=
  forall k, dict_get k d1 = dict_get k d2.

(** [v in [s1, s2, ...]] for a list of string literals: a string is equal
    to no value of another type. *)
Definition py_in (v : json) (l : list string) : bool :=
  match v with
  | JStr s => existsb (String.eqb s) l
  | _ => false
  end.

(** [v == s] for a string literal [s]. *)
Definition py_eq_str (v : json) (s : string) : bool :=
  match v with
  | JStr s' => String.eqb s' s
  | _ => false
  end.

(** [v is not None]. *)
Definition is_not_None (v : json) : bool :=
  match v with
  | JNull => false
  | _ => true
  end.

(** The double quote, for the messages that hold one. *)
Definition dq : string := String (ascii_of_nat 34) EmptyString.

(** [sub] occurs in [s]. *)
Definition occurs_in (sub s : string) : Prop :=
  exists pre post, s = pre ++ sub ++ post.

(** ** Exceptions *)

(** The exception classes the client can end with.  The message of an
    exception raised by the interpreter itself (not by a [raise] of the
    source) is not modelled: it is the empty string. *)
Inductive exn : Type :=
| DataikuException (msg : string)
| ValueError (msg : string)
| TypeError (msg : string)
| AttributeError (attr : string)
| KeyError (key : string)
| JSONDecodeError
| RequestException.

Inductive res (A : Type) : Type :=
| Ok (a : A)
| Raise (e : exn).
Arguments Ok {A} a.
Arguments Raise {A} e.

Definition is_TypeError {A} (r : res A) : bool :=
  match r with
  | Raise (TypeError _) => true
  | _ => false
  end.

Definition is_ValueError {A} (r : res A) : bool :=
  match r with
  | Raise (ValueError _) => true
  | _ => false
  end.

(** ** State and exceptions *)

(** A computation over a mutable state [S] that returns or raises; the
    state it leaves is kept in both cases. *)
Definition M (S A : Type) : Type := S -> res A * S.

Definition ret {S A} (a : A) : M S A := fun s => (Ok a, s).

Definition raise {S A} (e : exn) : M S A := fun s => (Raise e, s).

Definition bind {S A B} (m : M S A) (f : A -> M S B) : M S B :=
  fun s =>
    match m s with
    | (Ok a, s') => f a s'
    | (Raise e, s') => (Raise e, s')
    end.

Definition get {S} : M S S := fun s => (Ok s, s).

Definition of_res {S A} (r : res A) : M S A := fun s => (r, s).

Declare Scope py_scope.
Delimit Scope py_scope with py.
Notation "x <- c1 ;; c2" := (bind c1 (fun x => c2))
  (at level 61, c1 at next level, right associativity) : py_scope.
Notation "c1 ;; c2" := (bind c1 (fun _ => c2))
  (at level 61, right associativity) : py_scope.
Local Open Scope py_scope.

(** ** Operations of the interpreter on values *)

(** [v[k]] for a string key. *)
Definition py_getitem (v : json) (k : string) : res json :=
  match v with
  | JDict d =>
      match dict_get k d with
      | Some x => Ok x
      | None => Raise (KeyError k)
      end
  | _ => Raise (TypeError "")
  end.

(** [v[k] = x] for a string key. *)
Definition py_setitem (v : json) (k : string) (x : json) : res json :=
  match v with
  | JDict d => Ok (JDict (dict_set k x d))
  | _ => Raise (TypeError "")
  end.

(** [v.get(k, default)]: only a dictionary has the method. *)
Definition py_get (v : json) (k : string) (default : json) : res json :=
  match v with
  | JDict d =>
      Ok (match dict_get k d with
          | Some x => x
          | None => default
          end)
  | _ => Raise (AttributeError "get")
  end.

(** [v.append(x)]: only a list has the method. *)
Definition py_append (v : json) (x : json) : res json :=
  match v with
  | JList l => Ok (JList (l ++ [x])%list)
  | _ => Raise (AttributeError "append")
  end.

(** The one-character strings of a string. *)
Fixpoint chars (s : string) : list json :=
  match s with
  | EmptyString => []
  | String c s' => JStr (String c EmptyString) :: chars s'
  end.

(** [for x in v]: the elements of a list, the keys of a dictionary, the
    characters of a string; nothing else is iterable. *)
Definition py_iter (v : json) : res (list json) :=
  match v with
  | JList l => Ok l
  | JDict d => Ok (map (fun kv => JStr (fst kv)) d)
  | JStr s => Ok (chars s)
  | _ => Raise (TypeError "")
  end.

(** ** The outside world *)

(** What [Session.request] is called with. *)
Record request : Type := mkRequest {
  req_method : string;
  req_url : string;
  req_params : option json;
  req_data : option string;
  req_files : option json;
  req_stream : bool
}.

(** What it answers: the status, the body as text, and the body as
    [Response.json()] decodes it ([None] when decoding raises
    [ValueError]). *)
Record response : Type := mkResponse {
  status_code : Z;
  text : string;
  json_body : option json
}.

(** [Response.raise_for_status()] of the requests library raises
    [HTTPError] for the client errors (4xx) and the server errors (5xx),
    and for no other status. *)
Definition raise_for_status (r : response) : bool :=
  ((400 <=? status_code r) && (status_code r <? 600))%Z.

(** A call of [Session.request] ends with a response or with an exception
    of the transport (a connection error, a timeout), which is not an
    [HTTPError]. *)
Inductive outcome : Type :=
| Answered (r : response)
| Failed.

(** The session object the client keeps. The header store of the session
    is the library's own (a dictionary that ignores the case of the names
    and holds the library's defaults): it is not modelled, and [headers]
    records the entries the client hands to its [update], as given. *)
Record Session : Type := mkSession {
  auth : option (json * json);
  headers : dict
}.

(** The collaborators the client consumes as black boxes: the JSON
    serializer ([json.dumps]), [repr] of a value, and the server behind
    [Session.request], a state machine of any kind. *)
Class Runtime : Type := {
  json_dumps : json -> string;
  py_repr : json -> string;
  server : Type;
  session_request : Session -> server -> request -> outcome * server
}.

(** The world a call runs in: the server, and the requests issued so
    far, oldest first. *)
Record world `{Runtime} : Type := mkWorld {
  remote : server;
  sent : list request
}.
Arguments mkWorld {_} remote sent.

(** [str(v)], as ["%s" % v] formats a value: a string as it is, any other
    value by its [repr]. *)
Definition py_str `{Runtime} (v : json) : string :=
  match v with
  | JStr s => s
  | _ => py_repr v
  end.

(** ** fmclient.py: the client and its transport shim *)

Module FMClient.

(** The attributes of an [FMClient]. *)
Record t : Type := mk {
  api_key_id : json;
  api_key_secret : json;
  host : json;
  cloud : json;
  __tenant_id : json;
  _session : Session
}.

(** [FMClient.__init__]: the cloud is checked first, then the API key.
    [self._session.headers.update(extra_headers)] is recorded as the
    entries handed over, after those of earlier updates (there are none). *)
Definition __init__ (host api_key_id api_key_secret cloud tenant_id : json)
    (extra_headers : option dict) : res t :=
  if negb (py_in cloud ["AWS"; "Azure"]) then
    Raise (ValueError ("cloud should be either " ++ dq ++ "AWS" ++ dq
                         ++ " or " ++ dq ++ "Azure" ++ dq))
  else if is_not_None api_key_id && is_not_None api_key_secret then
    let session := mkSession (Some (api_key_id, api_key_secret)) [] in
    let session :=
      match extra_headers with
      | Some e => mkSession (auth session) (headers session ++ e)%list
      | None => session
      end in
    Ok (mk api_key_id api_key_secret host cloud tenant_id session)
  else
    Raise (ValueError "API Key ID and API Key secret are required").

Section Transport.
Context {R : Runtime}.

(** [self._session.request(...)]: one exchange with the server, entered
    in the list of the requests issued. *)
Definition request_ (self : t) (rq : request) : M world outcome :=
  fun w =>
    let (out, srv) := session_request (_session self) (remote w) rq in
    (Ok out, mkWorld srv (sent w ++ [rq])%list).

(** [FMClient._perform_http]. The keyword [body] is a Python value: left
    out it is [None], and given it may be [None] as well (a handle whose
    snapshot is [None] passes it as its body), so [if body is not None]
    tests the value and not only its presence. *)
Definition _perform_http (self : t) (method path : string)
    (params body : option json) (stream : bool) (files : option json)
    (raw_body : option string) : M world response :=
  let body :=
    match body with
    | Some b => if is_not_None b then Some (json_dumps b) else None
    | None => None
    end in
  let body :=
    match raw_body with
    | Some r => Some r
    | None => body
    end in
  out <- request_ self
           (mkRequest method (py_str (host self) ++ "/api/public" ++ path)
                      params body files stream) ;;
  match out with
  | Failed => raise RequestException
  | Answered http_res =>
      if raise_for_status http_res then
        let ex :=
          match json_body http_res with
          | Some v => v
          | None => JDict [("message", JStr (text http_res))]
          end in
        error_type <- of_res (py_get ex "errorType" (JStr "Unknown error")) ;;
        message <- of_res (py_get ex "message" (JStr "No message")) ;;
        raise (DataikuException (py_str error_type ++ ": " ++ py_str message))
      else ret http_res
  end.

(** [FMClient._perform_empty]. *)
Definition _perform_empty (self : t) (method path : string)
    (params body files : option json) (raw_body : option string)
    : M world unit :=
  _perform_http self method path params body false files raw_body ;;
  ret tt.

(** [FMClient._perform_json]: the response is decoded outside the
    [try] of [_perform_http]. *)
Definition _perform_json (self : t) (method path : string)
    (params body files : option json) (raw_body : option string)
    : M world json :=
  http_res <- _perform_http self method path params body false files raw_body ;;
  match json_body http_res with
  | Some v => ret v
  | None => raise JSONDecodeError
  end.

(** [FMClient._perform_tenant_json]. *)
Definition _perform_tenant_json (self : t) (method path : string)
    (params body files : option json) (raw_body : option string)
    : M world json :=
  _perform_json self method ("/tenants/" ++ py_str (__tenant_id self) ++ path)
                params body files raw_body.

(** [FMClient._perform_tenant_empty]. *)
Definition _perform_tenant_empty (self : t) (method path : string)
    (params body files : option json) (raw_body : option string)
    : M world unit :=
  _perform_empty self method ("/tenants/" ++ py_str (__tenant_id self) ++ path)
                 params body files raw_body.

End Transport.
End FMClient.

(** ** Objects that refer to one another *)

(** The two clouds, and with them the two subclasses of each creator. *)
Inductive cloud_kind : Type := AWS | Azure.

(** What the [client] attribute of a handle refers to: an [FMClient], or
    a template creator (its class and its attributes [data] and
    [client]), which is what [FMInstanceSettingsTemplateCreator.create]
    passes on. *)
Inductive pyobj : Type :=
| FMClient_object (c : FMClient.t)
| FMInstanceSettingsTemplateCreator_object
    (cls : cloud_kind) (data : dict) (client : FMClient.t).

(** A value given for an optional parameter, or the parameter's default. *)
Definition default {A} (given : option A) (dflt : A) : A :=
  match given with
  | Some a => a
  | None => dflt
  end.

(** [[f(x) for x in l]]: the first exception ends the comprehension. *)
Fixpoint map_res {A B} (f : A -> res B) (l : list A) : res (list B) :=
  match l with
  | [] => Ok []
  | x :: l' =>
      match f x with
      | Raise e => Raise e
      | Ok y =>
          match map_res f l' with
          | Raise e => Raise e
          | Ok ys => Ok (y :: ys)
          end
      end
  end.

Section Objects.
Context {R : Runtime}.

(** A method of an object that also talks to the server runs on the pair
    of the object and the world. *)
Definition self_ {T} : M (T * world) T := fun s => (Ok (fst s), s).

Definition set_self {T} (x : T) : M (T * world) unit :=
  fun s => (Ok tt, (x, snd s)).

Definition io {T A} (m : M world A) : M (T * world) A :=
  fun s => let (r, w) := m (snd s) in (r, (fst s, w)).

(** [client._perform_tenant_json(...)] and
    [client._perform_tenant_empty(...)] on whatever [client] refers to:
    a creator has neither method. *)
Definition call_perform_tenant_json (client : pyobj) (method path : string)
    (params body files : option json) (raw_body : option string)
    : M world json :=
  match client with
  | FMClient_object c =>
      FMClient._perform_tenant_json c method path params body files raw_body
  | FMInstanceSettingsTemplateCreator_object _ _ _ =>
      raise (AttributeError "_perform_tenant_json")
  end.

Definition call_perform_tenant_empty (client : pyobj) (method path : string)
    (params body files : option json) (raw_body : option string)
    : M world unit :=
  match client with
  | FMClient_object c =>
      FMClient._perform_tenant_empty c method path params body files raw_body
  | FMInstanceSettingsTemplateCreator_object _ _ _ =>
      raise (AttributeError "_perform_tenant_empty")
  end.

End Objects.

(** ** fm/future.py *)

Module FMFuture.

Record t : Type := mk {
  client : pyobj;
  state : json
}.

(** Modelled from the spec: fm/future.py is not among the source files.
    The spec has the caller obtain a future from the response envelope of
    an action, and only the wait operation of a future poll the server:
    [from_resp] builds the handle from the client and the envelope and
    issues no request. *)
Definition from_resp (client : pyobj) (resp : json) : t := mk client resp.

End FMFuture.

(** ** fm/instances.py: the handle of an instance *)

Module FMInstance.

(** The class of a handle: [FMInstance] itself or one of its two
    subclasses. *)
Inductive class : Type := Base | FMAWSInstance | FMAzureInstance.

Record t : Type := mk {
  cls : class;
  client : pyobj;
  instance_data : json;
  id : json
}.

(** [FMInstance.__init__], which the subclasses inherit. *)
Definition __init__ (c : class) (client : pyobj) (instance_data : json)
    : res t :=
  match py_getitem instance_data "id" with
  | Ok i => Ok (mk c client instance_data i)
  | Raise e => Raise e
  end.

(** [FMInstance(client, **x)]: the entries of [x] are bound as keyword
    arguments of [__init__(self, client, instance_data)].  The call is
    refused with [TypeError] unless [x] is a mapping whose only key is
    [instance_data]: any other key is an unexpected keyword (or a second
    value for [client] or [self]), and without the key the parameter
    [instance_data] is missing. *)
Definition call_with_kwargs (c : class) (client : pyobj) (x : json) : res t :=
  match x with
  | JDict d =>
      if forallb (fun kv => String.eqb (fst kv) "instance_data") d then
        match dict_get "instance_data" d with
        | Some v => __init__ c client v
        | None => Raise (TypeError "")
        end
      else Raise (TypeError "")
  | _ => Raise (TypeError "")
  end.

Section Methods.
Context {R : Runtime}.

(** The path of an action of the instance. *)
Definition action_path (self : t) (action : string) : string :=
  "/instances/" ++ py_str (id self) ++ "/actions/" ++ action.

(** [FMInstance.reprovision]. *)
Definition reprovision : M (t * world) FMFuture.t :=
  self <- self_ ;;
  future <- io (call_perform_tenant_json (client self) "GET"
                  (action_path self "reprovision") None None None None) ;;
  ret (FMFuture.from_resp (client self) future).

(** [FMInstance.deprovision]. *)
Definition deprovision : M (t * world) FMFuture.t :=
  self <- self_ ;;
  future <- io (call_perform_tenant_json (client self) "GET"
                  (action_path self "deprovision") None None None None) ;;
  ret (FMFuture.from_resp (client self) future).

(** [FMInstance.restart_dss]. *)
Definition restart_dss : M (t * world) FMFuture.t :=
  self <- self_ ;;
  future <- io (call_perform_tenant_json (client self) "GET"
                  (action_path self "restart-dss") None None None None) ;;
  ret (FMFuture.from_resp (client self) future).

(** [FMInstance.save]: the snapshot is passed as [body=] whatever it is;
    when it is [None] (after a [save] whose GET answered [null]),
    [_perform_http] finds the body [None] and the PUT carries no payload. *)
Definition save : M (t * world) unit :=
  self <- self_ ;;
  io (call_perform_tenant_empty (client self) "PUT"
        ("/instances/" ++ py_str (id self))
        None (Some (instance_data self)) None None) ;;
  data <- io (call_perform_tenant_json (client self) "GET"
                ("/instances/" ++ py_str (id self)) None None None None) ;;
  set_self (mk (cls self) (client self) data (id self)).

(** [FMInstance.delete]. *)
Definition delete : M (t * world) FMFuture.t :=
  self <- self_ ;;
  future <- io (call_perform_tenant_json (client self) "GET"
                  (action_path self "delete") None None None None) ;;
  ret (FMFuture.from_resp (client self) future).

(** [self.instance_data[key] = value]. *)
Definition set_instance_data (key : string) (value : json)
    : M (t * world) unit :=
  self <- self_ ;;
  data <- of_res (py_setitem (instance_data self) key value) ;;
  set_self (mk (cls self) (client self) data (id self)).

(** [FMInstance.set_automated_snapshots]; [keep] defaults to 0. *)
Definition set_automated_snapshots (enable period : json) (keep : option json)
    : M (t * world) unit :=
  let keep := default keep (JInt 0) in
  set_instance_data "enableAutomatedSnapshot" enable ;;
  set_instance_data "automatedSnapshotPeriod" period ;;
  set_instance_data "automatedSnapshotRetention" keep ;;
  save.

(** [FMInstance.set_custom_certificate]. *)
Definition set_custom_certificate (pem_data : json) : M (t * world) unit :=
  set_instance_data "sslCertificatePEM" pem_data ;;
  save.

(** [set_elastic_ip] of [FMAWSInstance] and of [FMAzureInstance]; the
    base class has no such method. *)
Definition set_elastic_ip (enable ip_id : json) : M (t * world) unit :=
  self <- self_ ;;
  match cls self with
  | FMAWSInstance =>
      set_instance_data "awsAssignElasticIP" enable ;;
      set_instance_data "awsElasticIPAllocationId" ip_id ;;
      save
  | FMAzureInstance =>
      set_instance_data "azureAssignElasticIP" enable ;;
      set_instance_data "azurePublicIPId" ip_id ;;
      save
  | Base => raise (AttributeError "set_elastic_ip")
  end.

End Methods.
End FMInstance.

(** The members of the enumeration [FMInstanceEncryptionMode]. *)
Inductive FMInstanceEncryptionMode : Type :=
| NONE
| DEFAULT_KEY
| TENANT
| CUSTOM.

(** [m.value]. *)
Definition value (m : FMInstanceEncryptionMode) : json :=
  match m with
  | NONE => JStr "NONE"
  | DEFAULT_KEY => JStr "DEFAULT_KEY"
  | TENANT => JStr "TENANT"
  | CUSTOM => JStr "CUSTOM"
  end.

(** An argument that is an ordinary value or a member of the
    enumeration. *)
Inductive arg : Type :=
| Value (v : json)
| Member (m : FMInstanceEncryptionMode).

(** ** fm/instancesettingstemplates.py: the handle of a template *)

Module FMInstanceSettingsTemplate.

Record t : Type := mk {
  client : pyobj;
  id : json;
  ist_data : json
}.

(** [FMInstanceSettingsTemplate.__init__]. *)
Definition __init__ (client : pyobj) (ist_data : json) : res t :=
  match py_getitem ist_data "id" with
  | Ok i => Ok (mk client i ist_data)
  | Raise e => Raise e
  end.

Section Methods.
Context {R : Runtime}.

(** [FMInstanceSettingsTemplate.save]: as [FMInstance.save], the snapshot
    is passed as [body=] whatever it is, and a snapshot [None] gives a PUT
    with no payload. *)
Definition save : M (t * world) unit :=
  self <- self_ ;;
  io (call_perform_tenant_empty (client self) "PUT"
        ("/instance-settings-templates/" ++ py_str (id self))
        None (Some (ist_data self)) None None) ;;
  data <- io (call_perform_tenant_json (client self) "GET"
                ("/instance-settings-templates/" ++ py_str (id self))
                None None None None) ;;
  set_self (mk (client self) (id self) data).

(** [FMInstanceSettingsTemplate.delete]. *)
Definition delete : M (t * world) FMFuture.t :=
  self <- self_ ;;
  future <- io (call_perform_tenant_json (client self) "DELETE"
                  ("/instance-settings-templates/" ++ py_str (id self))
                  None None None None) ;;
  ret (FMFuture.from_resp (client self) future).

(** [FMInstanceSettingsTemplate.add_setup_action]: the list under
    [setupActions] is extended in place. *)
Definition add_setup_action (setup_action : json) : M (t * world) unit :=
  self <- self_ ;;
  actions <- of_res (py_getitem (ist_data self) "setupActions") ;;
  actions <- of_res (py_append actions setup_action) ;;
  data <- of_res (py_setitem (ist_data self) "setupActions" actions) ;;
  set_self (mk (client self) (id self) data) ;;
  save.

End Methods.
End FMInstanceSettingsTemplate.

(** ** fm/instances.py: the creators of an instance *)

Module FMInstanceCreator.

(** An [FMAWSInstanceCreator] or an [FMAzureInstanceCreator]. *)
Record t : Type := mk {
  cls : cloud_kind;
  client : FMClient.t;
  data : dict
}.

(** [self.data[key] = value]. *)
Definition set_data (key : string) (value : json) : M t unit :=
  fun self => (Ok tt, mk (cls self) (client self) (dict_set key value (data self))).

(** [FMInstanceCreator.__init__], which both subclasses inherit. *)
Definition __init__ (c : cloud_kind) (client : FMClient.t)
    (label instance_settings_template_id virtual_network_id image_id : json)
    : t :=
  snd ((set_data "label" label ;;
        set_data "instanceSettingsTemplateId" instance_settings_template_id ;;
        set_data "virtualNetworkId" virtual_network_id ;;
        set_data "imageId" image_id ;;
        set_data "dssNodeType" (JStr "design"))
       (mk c client [])).

(** [FMInstanceCreator.with_dss_node_type]. *)
Definition with_dss_node_type (dss_node_type : json) : M t unit :=
  if negb (py_in dss_node_type ["design"; "automation"; "deployer"]) then
    raise (ValueError ("Only " ++ dq ++ "design" ++ dq ++ ", " ++ dq
                         ++ "automation" ++ dq ++ " or " ++ dq ++ "deployer"
                         ++ dq ++ " dss_node_type are supported"))
  else set_data "dssNodeType" dss_node_type.

(** [FMInstanceCreator.with_cloud_instance_type]. *)
Definition with_cloud_instance_type (cloud_instance_type : json) : M t unit :=
  set_data "cloudInstanceType" cloud_instance_type.

(** [FMInstanceCreator.with_data_volume_options]; every parameter is
    optional and defaults to [None]. *)
Definition with_data_volume_options
    (data_volume_type data_volume_size data_volume_size_max
       data_volume_IOPS : option json)
    (data_volume_encryption : option arg)
    (data_volume_encryption_key : option json) : M t unit :=
  let data_volume_type := default data_volume_type JNull in
  let data_volume_size := default data_volume_size JNull in
  let data_volume_size_max := default data_volume_size_max JNull in
  let data_volume_IOPS := default data_volume_IOPS JNull in
  let data_volume_encryption := default data_volume_encryption (Value JNull) in
  let data_volume_encryption_key := default data_volume_encryption_key JNull in
  match data_volume_encryption with
  | Value _ =>
      raise (TypeError
               "data_volume encryption needs to be of type FMInstanceEncryptionMode")
  | Member m =>
      set_data "dataVolumeType" data_volume_type ;;
      set_data "dataVolumeSizeGB" data_volume_size ;;
      set_data "dataVolumeSizeMaxGB" data_volume_size_max ;;
      set_data "dataVolumeIOPS" data_volume_IOPS ;;
      set_data "dataVolumeEncryption" (value m) ;;
      set_data "dataVolumeEncryptionKey" data_volume_encryption_key
  end.

(** [FMInstanceCreator.with_cloud_tags]. *)
Definition with_cloud_tags (cloud_tags : json) : M t unit :=
  set_data "cloudTags" cloud_tags.

(** [FMInstanceCreator.with_fm_tags]. *)
Definition with_fm_tags (fm_tags : json) : M t unit :=
  set_data "fmTags" fm_tags.

(** [FMAWSInstanceCreator.with_aws_root_volume_options]: a method of
    the AWS subclass only. *)
Definition with_aws_root_volume_options
    (aws_root_volume_size aws_root_volume_type aws_root_volume_IOPS
       : option json) : M t unit :=
  self <- get ;;
  match cls self with
  | AWS =>
      set_data "awsRootVolumeSizeGB" (default aws_root_volume_size JNull) ;;
      set_data "awsRootVolumeType" (default aws_root_volume_type JNull) ;;
      set_data "awsRootVolumeIOPS" (default aws_root_volume_IOPS JNull)
  | Azure => raise (AttributeError "with_aws_root_volume_options")
  end.

Section Create.
Context {R : Runtime}.

(** [create] of [FMAWSInstanceCreator] and of [FMAzureInstanceCreator]. *)
Definition create (self : t) : M world FMInstance.t :=
  instance <- FMClient._perform_tenant_json (client self) "POST" "/instances"
                None (Some (JDict (data self))) None None ;;
  of_res (FMInstance.__init__
            match cls self with
            | AWS => FMInstance.FMAWSInstance
            | Azure => FMInstance.FMAzureInstance
            end
            (FMClient_object (client self)) instance).

End Create.
End FMInstanceCreator.

(** ** fm/instancesettingstemplates.py: the creators of a template *)

Module FMInstanceSettingsTemplateCreator.

(** An [FMAWSInstanceSettingsTemplateCreator] or an
    [FMAzureInstanceSettingsTemplateCreator]. *)
Record t : Type := mk {
  cls : cloud_kind;
  data : dict;
  client : FMClient.t
}.

(** [self.data[key] = value]. *)
Definition set_data (key : string) (value : json) : M t unit :=
  fun self => (Ok tt, mk (cls self) (dict_set key value (data self)) (client self)).

(** A method of the AWS subclass, a method of the Azure subclass. *)
Definition aws_only (name : string) (m : M t unit) : M t unit :=
  self <- get ;;
  match cls self with
  | AWS => m
  | Azure => raise (AttributeError name)
  end.

Definition azure_only (name : string) (m : M t unit) : M t unit :=
  self <- get ;;
  match cls self with
  | Azure => m
  | AWS => raise (AttributeError name)
  end.

(** [FMInstanceSettingsTemplateCreator.__init__]. *)
Definition __init__ (c : cloud_kind) (client : FMClient.t) (label : json) : t :=
  mk c (dict_set "label" label []) client.

(** [FMInstanceSettingsTemplateCreator.with_setup_actions]. *)
Definition with_setup_actions (setup_actions : json) : M t unit :=
  set_data "setupActions" setup_actions.

(** [FMInstanceSettingsTemplateCreator.with_license]. *)
Definition with_license (license : json) : M t unit :=
  set_data "license" license.

(** [FMAWSInstanceSettingsTemplateCreator.with_aws_keypair]. *)
Definition with_aws_keypair (aws_keypair_name : json) : M t unit :=
  aws_only "with_aws_keypair"
    (set_data "awsKeyPairName" aws_keypair_name).

(** [FMAWSInstanceSettingsTemplateCreator.with_startup_instance_profile]. *)
Definition with_startup_instance_profile (startup_instance_profile_arn : json)
    : M t unit :=
  aws_only "with_startup_instance_profile"
    (set_data "startupInstanceProfileArn" startup_instance_profile_arn).

(** [FMAWSInstanceSettingsTemplateCreator.with_runtime_instance_profile]. *)
Definition with_runtime_instance_profile (runtime_instance_profile_arn : json)
    : M t unit :=
  aws_only "with_runtime_instance_profile"
    (set_data "runtimeInstanceProfileArn" runtime_instance_profile_arn).

(** [FMAWSInstanceSettingsTemplateCreator.with_restrict_aws_metadata_server_access];
    the flag defaults to [True]. *)
Definition with_restrict_aws_metadata_server_access
    (restrict_aws_metadata_server_access : option json) : M t unit :=
  aws_only "with_restrict_aws_metadata_server_access"
    (set_data "restrictAwsMetadataServerAccess"
       (default restrict_aws_metadata_server_access (JBool true))).

(** [FMAWSInstanceSettingsTemplateCreator.with_default_aws_api_access_mode]. *)
Definition with_default_aws_api_access_mode : M t unit :=
  aws_only "with_default_aws_api_access_mode"
    (set_data "dataikuAwsAPIAccessMode" (JStr "NONE")).

(** [FMAWSInstanceSettingsTemplateCreator.with_keypair_aws_api_access_mode];
    the storage mode defaults to ["NONE"], the three parameters after it
    to [None]. *)
Definition with_keypair_aws_api_access_mode (aws_access_key_id : json)
    (aws_keypair_storage_mode aws_secret_access_key
       aws_secret_access_key_aws_secret_name aws_secrets_manager_region
       : option json) : M t unit :=
  let aws_keypair_storage_mode := default aws_keypair_storage_mode (JStr "NONE") in
  let aws_secret_access_key := default aws_secret_access_key JNull in
  let aws_secret_access_key_aws_secret_name :=
    default aws_secret_access_key_aws_secret_name JNull in
  let aws_secrets_manager_region := default aws_secrets_manager_region JNull in
  aws_only "with_keypair_aws_api_access_mode"
    (if negb (py_in aws_keypair_storage_mode
                ["NONE"; "INLINE_ENCRYPTED"; "AWS_SECRETS_MANAGER"]) then
       raise (ValueError
                ("aws_keypair_storage_mode should be either " ++ dq ++ "NONE"
                   ++ dq ++ ", " ++ dq ++ "INLINE_ENCRYPTED" ++ dq ++ " or "
                   ++ dq ++ "AWS_SECRET_MANAGER" ++ dq))
     else
       set_data "dataikuAwsAPIAccessMode" (JStr "KEYPAIR") ;;
       set_data "dataikuAwsKeypairStorageMode" aws_keypair_storage_mode ;;
       if py_eq_str aws_keypair_storage_mode "NONE" then ret tt
       else
         set_data "dataikuAwsAccessKeyId" aws_access_key_id ;;
         if py_eq_str aws_keypair_storage_mode "INLINE_ENCRYPTED" then
           if negb (is_not_None aws_secret_access_key) then
             raise (ValueError
                      ("When aws_keypair_storage_mode is " ++ dq
                         ++ "INLINE_ENCRYPTED" ++ dq
                         ++ ", aws_secret_access_key should be provided"))
           else set_data "dataikuAwsSecretAccessKey" aws_secret_access_key
         else if py_eq_str aws_keypair_storage_mode "AWS_SECRETS_MANAGER" then
           if negb (is_not_None aws_secret_access_key_aws_secret_name) then
             raise (ValueError
                      ("When aws_keypair_storage_mode is " ++ dq
                         ++ "AWS_SECRETS_MANAGER" ++ dq
                         ++ ", aws_secret_access_key_aws_secret_name should be provided"))
           else
             set_data "dataikuAwsSecretAccessKeyAwsSecretName"
                      aws_secret_access_key_aws_secret_name ;;
             set_data "awsSecretsManagerRegion" aws_secrets_manager_region
         else ret tt).

(** [FMAzureInstanceSettingsTemplateCreator.with_ssh_key]. *)
Definition with_ssh_key (ssh_public_key : json) : M t unit :=
  azure_only "with_ssh_key" (set_data "azureSshKey" ssh_public_key).

(** [FMAzureInstanceSettingsTemplateCreator.with_startup_managed_identity]. *)
Definition with_startup_managed_identity (startup_managed_identity : json)
    : M t unit :=
  azure_only "with_startup_managed_identity"
    (set_data "startupManagedIdentity" startup_managed_identity).

(** [FMAzureInstanceSettingsTemplateCreator.with_runtime_managed_identity]. *)
Definition with_runtime_managed_identity (runtime_managed_identity : json)
    : M t unit :=
  azure_only "with_runtime_managed_identity"
    (set_data "runtimeManagedIdentity" runtime_managed_identity).

Section Create.
Context {R : Runtime}.

(** [FMInstanceSettingsTemplateCreator.create]: the handle is built from
    [self], the creator, and the template the server answered. *)
Definition create (self : t) : M world FMInstanceSettingsTemplate.t :=
  template <- FMClient._perform_tenant_json (client self) "POST"
                "/instance-settings-templates"
                None (Some (JDict (data self))) None None ;;
  of_res (FMInstanceSettingsTemplate.__init__
            (FMInstanceSettingsTemplateCreator_object
               (cls self) (data self) (client self))
            template).

End Create.
End FMInstanceSettingsTemplateCreator.

(** ** fmclient.py: the resources of the client *)

Section Resources.
Context {R : Runtime}.

(** [FMClient.list_instance_templates]. *)
Definition list_instance_templates (self : FMClient.t)
    : M world (list FMInstanceSettingsTemplate.t) :=
  templates <- FMClient._perform_tenant_json self "GET"
                 "/instance-settings-templates" None None None None ;;
  xs <- of_res (py_iter templates) ;;
  of_res (map_res (FMInstanceSettingsTemplate.__init__ (FMClient_object self)) xs).

(** [FMClient.get_instance_template]. *)
Definition get_instance_template (self : FMClient.t) (template_id : json)
    : M world FMInstanceSettingsTemplate.t :=
  template <- FMClient._perform_tenant_json self "GET"
                ("/instance-settings-templates/" ++ py_str template_id)
                None None None None ;;
  of_res (FMInstanceSettingsTemplate.__init__ (FMClient_object self) template).

(** [FMClient.new_instance_template_creator]; [None] is the [None] a
    Python function returns when it ends without a [return]. *)
Definition new_instance_template_creator (self : FMClient.t) (label : json)
    : option FMInstanceSettingsTemplateCreator.t :=
  if py_eq_str (FMClient.cloud self) "AWS" then
    Some (FMInstanceSettingsTemplateCreator.__init__ AWS self label)
  else if py_eq_str (FMClient.cloud self) "Azure" then
    Some (FMInstanceSettingsTemplateCreator.__init__ Azure self label)
  else None.

(** [FMClient.list_instances]: each object of the answer is unpacked
    into keyword arguments. *)
Definition list_instances (self : FMClient.t) : M world (list FMInstance.t) :=
  instances <- FMClient._perform_tenant_json self "GET" "/instances"
                 None None None None ;;
  xs <- of_res (py_iter instances) ;;
  of_res (map_res (FMInstance.call_with_kwargs FMInstance.Base
                     (FMClient_object self)) xs).

(** [FMClient.get_instance]. *)
Definition get_instance (self : FMClient.t) (instance_id : json)
    : M world FMInstance.t :=
  instance <- FMClient._perform_tenant_json self "GET"
                ("/instances/" ++ py_str instance_id) None None None None ;;
  of_res (FMInstance.__init__ FMInstance.Base (FMClient_object self) instance).

(** [FMClient.new_instance_creator]. *)
Definition new_instance_creator (self : FMClient.t)
    (label instance_settings_template_id virtual_network_id image_id : json)
    : option FMInstanceCreator.t :=
  if py_eq_str (FMClient.cloud self) "AWS" then
    Some (FMInstanceCreator.__init__ AWS self label
            instance_settings_template_id virtual_network_id image_id)
  else if py_eq_str (FMClient.cloud self) "Azure" then
    Some (FMInstanceCreator.__init__ Azure self label
            instance_settings_template_id virtual_network_id image_id)
  else None.

End Resources.

(** ** What the statements below speak of *)

Section Requests.
Context {R : Runtime}.

(** The request [_perform_http] hands to the session: its payload is the
    raw body when there is one, else the serialized body when there is
    one that is not [None], else none. *)
Definition request_of (self : FMClient.t) (method path : string)
    (params body : option json) (stream : bool) (files : option json)
    (raw_body : option string) : request :=
  mkRequest method (py_str (FMClient.host self) ++ "/api/public" ++ path)
    params
    match raw_body with
    | Some r => Some r
    | None =>
        match body with
        | Some b => if is_not_None b then Some (json_dumps b) else None
        | None => None
        end
    end
    files stream.

(** The request of a tenant-scoped call with no parameters, files or raw
    body, as the handles and the creators make them. *)
Definition tenant_request (self : FMClient.t) (method path : string)
    (body : option json) : request :=
  request_of self method
    ("/tenants/" ++ py_str (FMClient.__tenant_id self) ++ path)
    None body false None None.

(** The requests a run has added to those of the world it started in. *)
Definition issued (before after : world) (l : list request) : Prop :=
  sent after = (sent before ++ l)%list.

End Requests.

(** [d.get(k, default)] with a string for default. *)
Definition field (d : dict) (k default : string) : json :=
  match dict_get k d with
  | Some x => x
  | None => JStr default
  end.

(** A plain rendering of a value, for the examples: the role of
    [json.dumps] and of [repr] there. *)
Fixpoint render (v : json) : string :=
  match v with
  | JNull => "null"
  | JBool true => "true"
  | JBool false => "false"
  | JInt n => NilZero.string_of_int (Z.to_int n)
  | JStr s => dq ++ s ++ dq
  | JList l => "[" ++ String.concat ", " (map render l) ++ "]"
  | JDict d =>
      "{" ++ String.concat ", "
               (map (fun kv : string * json => let (k, x) := kv in dq ++ k ++ dq ++ ": " ++ render x) d)
          ++ "}"
  end.

(** A runtime for the examples: the server counts the requests it has
    answered and answers the next one by [answer]. *)
Definition example_runtime (answer : nat -> request -> outcome) : Runtime :=
  {| json_dumps := render;
     py_repr := render;
     server := nat;
     session_request := fun _ n rq => (answer n rq, S n) |}.

(** A client for the examples. *)
Definition example_client : FMClient.t :=
  FMClient.mk (JStr "key-id") (JStr "key-secret") (JStr "https://fm.example.com")
    (JStr "AWS") (JStr "main")
    (mkSession (Some (JStr "key-id", JStr "key-secret")) []).

(** The server answers every request with status 200 and the object
    [{id: i-1, rev: n}], where [n] counts the requests before it. *)
Definition answer_ok (n : nat) (rq : request) : outcome :=
  Answered (mkResponse 200 "" (Some (JDict [("id", JStr "i-1"); ("rev", JInt (Z.of_nat n))]))).

(** The server answers every request with the given response. *)
Definition answer_with (r : response) (n : nat) (rq : request) : outcome :=
  Answered r.

(** The world before the first request. *)
Definition fresh_world (answer : nat -> request -> outcome)
    : @world (example_runtime answer) :=
  @mkWorld (example_runtime answer) 0%nat [].

(** ** The setter calls of a builder chain *)

(** A chain [with_x(a).with_y(b)] runs the setters one after the other
    on the same creator; an exception ends it. *)

Module InstanceSetter.

(** The setter methods of [FMInstanceCreator] and of its AWS subclass. *)
Inductive method : Type :=
| with_dss_node_type
| with_cloud_instance_type
| with_data_volume_options
| with_cloud_tags
| with_fm_tags
| with_aws_root_volume_options.

(** A call of a setter, with its arguments. *)
Inductive call : Type :=
| Dss_node_type (dss_node_type : json)
| Cloud_instance_type (cloud_instance_type : json)
| Data_volume_options
    (data_volume_type data_volume_size data_volume_size_max
       data_volume_IOPS : option json)
    (data_volume_encryption : option arg)
    (data_volume_encryption_key : option json)
| Cloud_tags (cloud_tags : json)
| Fm_tags (fm_tags : json)
| Aws_root_volume_options
    (aws_root_volume_size aws_root_volume_type aws_root_volume_IOPS
       : option json).

Definition method_of (c : call) : method :=
  match c with
  | Dss_node_type _ => with_dss_node_type
  | Cloud_instance_type _ => with_cloud_instance_type
  | Data_volume_options _ _ _ _ _ _ => with_data_volume_options
  | Cloud_tags _ => with_cloud_tags
  | Fm_tags _ => with_fm_tags
  | Aws_root_volume_options _ _ _ => with_aws_root_volume_options
  end.

Definition run (c : call) : M FMInstanceCreator.t unit :=
  match c with
  | Dss_node_type v => FMInstanceCreator.with_dss_node_type v
  | Cloud_instance_type v => FMInstanceCreator.with_cloud_instance_type v
  | Data_volume_options a b c d e f =>
      FMInstanceCreator.with_data_volume_options a b c d e f
  | Cloud_tags v => FMInstanceCreator.with_cloud_tags v
  | Fm_tags v => FMInstanceCreator.with_fm_tags v
  | Aws_root_volume_options a b c =>
      FMInstanceCreator.with_aws_root_volume_options a b c
  end.

(** The keys of [data] a method may assign. *)
Definition keys (m : method) : list string :=
  match m with
  | with_dss_node_type => ["dssNodeType"]
  | with_cloud_instance_type => ["cloudInstanceType"]
  | with_data_volume_options =>
      ["dataVolumeType"; "dataVolumeSizeGB"; "dataVolumeSizeMaxGB";
       "dataVolumeIOPS"; "dataVolumeEncryption"; "dataVolumeEncryptionKey"]
  | with_cloud_tags => ["cloudTags"]
  | with_fm_tags => ["fmTags"]
  | with_aws_root_volume_options =>
      ["awsRootVolumeSizeGB"; "awsRootVolumeType"; "awsRootVolumeIOPS"]
  end.

End InstanceSetter.

Module TemplateSetter.

(** The setter methods of [FMInstanceSettingsTemplateCreator] and of its
    two subclasses. *)
Inductive method : Type :=
| with_setup_actions
| with_license
| with_aws_keypair
| with_startup_instance_profile
| with_runtime_instance_profile
| with_restrict_aws_metadata_server_access
| with_default_aws_api_access_mode
| with_keypair_aws_api_access_mode
| with_ssh_key
| with_startup_managed_identity
| with_runtime_managed_identity.

(** A call of a setter, with its arguments. *)
Inductive call : Type :=
| Setup_actions (setup_actions : json)
| License (license : json)
| Aws_keypair (aws_keypair_name : json)
| Startup_instance_profile (startup_instance_profile_arn : json)
| Runtime_instance_profile (runtime_instance_profile_arn : json)
| Restrict_aws_metadata_server_access
    (restrict_aws_metadata_server_access : option json)
| Default_aws_api_access_mode
| Keypair_aws_api_access_mode (aws_access_key_id : json)
    (aws_keypair_storage_mode aws_secret_access_key
       aws_secret_access_key_aws_secret_name aws_secrets_manager_region
       : option json)
| Ssh_key (ssh_public_key : json)
| Startup_managed_identity (startup_managed_identity : json)
| Runtime_managed_identity (runtime_managed_identity : json).

Definition method_of (c : call) : method :=
  match c with
  | Setup_actions _ => with_setup_actions
  | License _ => with_license
  | Aws_keypair _ => with_aws_keypair
  | Startup_instance_profile _ => with_startup_instance_profile
  | Runtime_instance_profile _ => with_runtime_instance_profile
  | Restrict_aws_metadata_server_access _ =>
      with_restrict_aws_metadata_server_access
  | Default_aws_api_access_mode => with_default_aws_api_access_mode
  | Keypair_aws_api_access_mode _ _ _ _ _ => with_keypair_aws_api_access_mode
  | Ssh_key _ => with_ssh_key
  | Startup_managed_identity _ => with_startup_managed_identity
  | Runtime_managed_identity _ => with_runtime_managed_identity
  end.

Definition run (c : call) : M FMInstanceSettingsTemplateCreator.t unit :=
  match c with
  | Setup_actions v => FMInstanceSettingsTemplateCreator.with_setup_actions v
  | License v => FMInstanceSettingsTemplateCreator.with_license v
  | Aws_keypair v => FMInstanceSettingsTemplateCreator.with_aws_keypair v
  | Startup_instance_profile v =>
      FMInstanceSettingsTemplateCreator.with_startup_instance_profile v
  | Runtime_instance_profile v =>
      FMInstanceSettingsTemplateCreator.with_runtime_instance_profile v
  | Restrict_aws_metadata_server_access v =>
      FMInstanceSettingsTemplateCreator.with_restrict_aws_metadata_server_access v
  | Default_aws_api_access_mode =>
      FMInstanceSettingsTemplateCreator.with_default_aws_api_access_mode
  | Keypair_aws_api_access_mode k a b c d =>
      FMInstanceSettingsTemplateCreator.with_keypair_aws_api_access_mode k a b c d
  | Ssh_key v => FMInstanceSettingsTemplateCreator.with_ssh_key v
  | Startup_managed_identity v =>
      FMInstanceSettingsTemplateCreator.with_startup_managed_identity v
  | Runtime_managed_identity v =>
      FMInstanceSettingsTemplateCreator.with_runtime_managed_identity v
  end.

(** The keys of [data] a method may assign. *)
Definition keys (m : method) : list string :=
  match m with
  | with_setup_actions => ["setupActions"]
  | with_license => ["license"]
  | with_aws_keypair => ["awsKeyPairName"]
  | with_startup_instance_profile => ["startupInstanceProfileArn"]
  | with_runtime_instance_profile => ["runtimeInstanceProfileArn"]
  | with_restrict_aws_metadata_server_access =>
      ["restrictAwsMetadataServerAccess"]
  | with_default_aws_api_access_mode => ["dataikuAwsAPIAccessMode"]
  | with_keypair_aws_api_access_mode =>
      ["dataikuAwsAPIAccessMode"; "dataikuAwsKeypairStorageMode";
       "dataikuAwsAccessKeyId"; "dataikuAwsSecretAccessKey";
       "dataikuAwsSecretAccessKeyAwsSecretName"; "awsSecretsManagerRegion"]
  | with_ssh_key => ["azureSshKey"]
  | with_startup_managed_identity => ["startupManagedIdentity"]
  | with_runtime_managed_identity => ["runtimeManagedIdentity"]
  end.

End TemplateSetter.

(** No key of the first list is in the second. *)
Definition disjoint (l1 l2 : list string) : bool :=
  forallb (fun k => negb (existsb (String.eqb k) l2)) l1.

(** The binding of [k] that the assignments [ws], made in order, leave:
    the last one. *)
Definition last_write (k : string) (ws : dict) : option json :=
  dict_get k (rev ws).

(** The two error responses the specification gives as examples, and a
    response that is neither a success nor an error. *)
Definition not_found : response :=
  mkResponse 404 "(the object below, as text)"
    (Some (JDict [("errorType", JStr "NotFound");
                  ("message", JStr "no such instance")])).

Definition internal_error : response :=
  mkResponse 500 "internal error" None.

Definition not_modified : response :=
  mkResponse 304 "" None.

Section Runs.
Context {R : Runtime}.

(** The run of a save on a handle that holds a client: the PUT first; if
    it fails, nothing more; otherwise the GET, and the data of the handle
    replaced when the GET returns. *)
Definition save_run (c : FMClient.t) (path : string) (data : json)
    (w : world) : res json * world :=
  match FMClient._perform_tenant_empty c "PUT" path None (Some data) None None w
  with
  | (Raise e, w1) => (Raise e, w1)
  | (Ok _, w1) =>
      FMClient._perform_tenant_json c "GET" path None None None None w1
  end.

(** What one [save()] through the client [c] may have issued between
    the worlds [w] and [w'] when the call that made it ended with [r]:
    the PUT and the GET when the call returned; when it raised, nothing
    (the exception came before the save), the PUT alone (the PUT failed)
    or both (the GET failed). *)
Definition one_save (c : FMClient.t) (path : string) (r : res unit)
    (w w' : world) : Prop :=
  match r with
  | Ok _ =>
      exists data,
        issued w w' [tenant_request c "PUT" path (Some data);
                     tenant_request c "GET" path None]
  | Raise _ =>
      issued w w' []
      \/ exists data,
           issued w w' [tenant_request c "PUT" path (Some data)]
           \/ issued w w' [tenant_request c "PUT" path (Some data);
                           tenant_request c "GET" path None]
  end.

End Runs.

(** Handles for the examples. *)
Definition example_instance : FMInstance.t :=
  FMInstance.mk FMInstance.Base (FMClient_object example_client)
    (JDict [("id", JStr "i-1")]) (JStr "i-1").

Definition example_template : FMInstanceSettingsTemplate.t :=
  FMInstanceSettingsTemplate.mk (FMClient_object example_client)
    (JStr "ist-1") (JDict [("id", JStr "ist-1"); ("setupActions", JList [])]).

(** ** fm/instancesettingstemplates.py: setup actions *)

(** The truth value of a value, as [if params:] tests it. *)
Definition py_truthy (v : json) : bool :=
  match v with
  | JNull => false
  | JBool b => b
  | JInt n => negb (Z.eqb n 0)
  | JStr s => negb (String.eqb s "")
  | JList l => match l with [] => false | _ => true end
  | JDict d => match d with [] => false | _ => true end
  end.

(** An argument expected to be a member of the enumeration [E]: a member,
    or an ordinary value. *)
Inductive enum_arg (E : Type) : Type :=
| IsMember (m : E)
| NotMember (v : json).
Arguments IsMember {E} m.
Arguments NotMember {E} v.

(** [a.value]: an ordinary value has no such attribute. *)
Definition attr_value {E} (value_of : E -> json) (a : enum_arg E) : res json :=
  match a with
  | IsMember m => Ok (value_of m)
  | NotMember _ => Raise (AttributeError "value")
  end.

Module FMSetupActionType.

Inductive t : Type :=
| RUN_ANSIBLE_TASKS
| INSTALL_SYSTEM_PACKAGES
| INSTALL_DSS_PLUGINS_FROM_STORE
| SETUP_K8S_AND_SPARK
| SETUP_RUNTIME_DATABASE
| SETUP_MUS_AUTOCREATE
| SETUP_UI_CUSTOMIZATION
| SETUP_MEMORY_SETTINGS
| SETUP_GRAPHICS_EXPORT
| ADD_AUTHORIZED_KEY
| INSTALL_JDBC_DRIVER
| SETUP_ADVANCED_SECURITY.

Definition value (m : t) : json :=
  match m with
  | RUN_ANSIBLE_TASKS => JStr "RUN_ANSIBLE_TASKS"
  | INSTALL_SYSTEM_PACKAGES => JStr "INSTALL_SYSTEM_PACKAGES"
  | INSTALL_DSS_PLUGINS_FROM_STORE => JStr "INSTALL_DSS_PLUGINS_FROM_STORE"
  | SETUP_K8S_AND_SPARK => JStr "SETUP_K8S_AND_SPARK"
  | SETUP_RUNTIME_DATABASE => JStr "SETUP_RUNTIME_DATABASE"
  | SETUP_MUS_AUTOCREATE => JStr "SETUP_MUS_AUTOCREATE"
  | SETUP_UI_CUSTOMIZATION => JStr "SETUP_UI_CUSTOMIZATION"
  | SETUP_MEMORY_SETTINGS => JStr "SETUP_MEMORY_SETTINGS"
  | SETUP_GRAPHICS_EXPORT => JStr "SETUP_GRAPHICS_EXPORT"
  | ADD_AUTHORIZED_KEY => JStr "ADD_AUTHORIZED_KEY"
  | INSTALL_JDBC_DRIVER => JStr "INSTALL_JDBC_DRIVER"
  | SETUP_ADVANCED_SECURITY => JStr "SETUP_ADVANCED_SECURITY"
  end.

End FMSetupActionType.

Module FMSetupActionStage.

Inductive t : Type :=
| after_dss_startup
| after_install
| before_install.

Definition value (m : t) : json :=
  match m with
  | after_dss_startup => JStr "after_dss_startup"
  | after_install => JStr "after_install"
  | before_install => JStr "before_install"
  end.

End FMSetupActionStage.

Module FMSetupActionAddJDBCDriverDatabaseType.

Inductive t : Type :=
| mysql
| mssql
| oracle
| mariadb
| snowflake
| athena
| bigquery.

Definition value (m : t) : json :=
  match m with
  | mysql => JStr "mysql"
  | mssql => JStr "mssql"
  | oracle => JStr "oracle"
  | mariadb => JStr "mariadb"
  | snowflake => JStr "snowflake"
  | athena => JStr "athena"
  | bigquery => JStr "bigquery"
  end.

End FMSetupActionAddJDBCDriverDatabaseType.

Module FMSetupAction.

(** [FMSetupAction.__init__]: an [FMSetupAction] is the dictionary it is
    built from; [params] defaults to [None] and is kept only when it is
    true. *)
Definition __init__ (setupActionType : enum_arg FMSetupActionType.t)
    (params : option json) : res json :=
  let params := default params JNull in
  match attr_value FMSetupActionType.value setupActionType with
  | Raise e => Raise e
  | Ok type =>
      let data := dict_set "type" type [] in
      let data :=
        if py_truthy params then dict_set "params" params data else data in
      Ok (JDict data)
  end.

(** [FMSetupAction.add_authorized_key]. *)
Definition add_authorized_key (ssh_key : json) : res json :=
  __init__ (IsMember FMSetupActionType.ADD_AUTHORIZED_KEY)
    (Some (JDict (dict_set "sshKey" ssh_key []))).

(** [FMSetupAction.run_ansible_task]. *)
Definition run_ansible_task (stage : enum_arg FMSetupActionStage.t)
    (yaml_string : json) : res json :=
  match attr_value FMSetupActionStage.value stage with
  | Raise e => Raise e
  | Ok stage_value =>
      __init__ (IsMember FMSetupActionType.RUN_ANSIBLE_TASKS)
        (Some (JDict (dict_set "ansibleTasks" yaml_string
                        (dict_set "stage" stage_value []))))
  end.

(** [FMSetupAction.install_system_packages]. *)
Definition install_system_packages (packages : json) : res json :=
  __init__ (IsMember FMSetupActionType.INSTALL_SYSTEM_PACKAGES)
    (Some (JDict (dict_set "packages" packages []))).

(** [FMSetupAction.setup_advanced_security]; [basic_headers] defaults to
    [True], [hsts] to [False]. *)
Definition setup_advanced_security (basic_headers hsts : option json)
    : res json :=
  __init__ (IsMember FMSetupActionType.SETUP_ADVANCED_SECURITY)
    (Some (JDict (dict_set "hsts" (default hsts (JBool false))
                    (dict_set "basic_headers"
                       (default basic_headers (JBool true)) [])))).

(** [FMSetupAction.install_jdbc_driver]; the five parameters after [url]
    default to [None]. *)
Definition install_jdbc_driver
    (database_type : enum_arg FMSetupActionAddJDBCDriverDatabaseType.t)
    (url : json)
    (paths_in_archive http_headers http_username http_password
       datadir_subdirectory : option json) : res json :=
  match attr_value FMSetupActionAddJDBCDriverDatabaseType.value database_type
  with
  | Raise e => Raise e
  | Ok db_type =>
      __init__ (IsMember FMSetupActionType.INSTALL_JDBC_DRIVER)
        (Some (JDict
                 (dict_set "subpathInDatadir" (default datadir_subdirectory JNull)
                    (dict_set "password" (default http_password JNull)
                       (dict_set "username" (default http_username JNull)
                          (dict_set "headers" (default http_headers JNull)
                             (dict_set "pathsInArchive"
                                (default paths_in_archive JNull)
                                (dict_set "dbType" db_type
                                   (dict_set "url" url [])))))))))
  end.

(** [FMSetupAction.setup_k8s_and_spark]. *)
Definition setup_k8s_and_spark : res json :=
  __init__ (IsMember FMSetupActionType.SETUP_K8S_AND_SPARK) None.

(** A call of one of the static constructors, with its arguments. *)
Inductive static_call : Type :=
| Add_authorized_key (ssh_key : json)
| Run_ansible_task (stage : enum_arg FMSetupActionStage.t) (yaml_string : json)
| Install_system_packages (packages : json)
| Setup_advanced_security (basic_headers hsts : option json)
| Install_jdbc_driver
    (database_type : enum_arg FMSetupActionAddJDBCDriverDatabaseType.t)
    (url : json)
    (paths_in_archive http_headers http_username http_password
       datadir_subdirectory : option json)
| Setup_k8s_and_spark.

Definition build (c : static_call) : res json :=
  match c with
  | Add_authorized_key k => add_authorized_key k
  | Run_ansible_task s y => run_ansible_task s y
  | Install_system_packages p => install_system_packages p
  | Setup_advanced_security b h => setup_advanced_security b h
  | Install_jdbc_driver t u a b c d e => install_jdbc_driver t u a b c d e
  | Setup_k8s_and_spark => setup_k8s_and_spark
  end.

(** The member of [FMSetupActionType] a static constructor names. *)
Definition type_of (c : static_call) : FMSetupActionType.t :=
  match c with
  | Add_authorized_key _ => FMSetupActionType.ADD_AUTHORIZED_KEY
  | Run_ansible_task _ _ => FMSetupActionType.RUN_ANSIBLE_TASKS
  | Install_system_packages _ => FMSetupActionType.INSTALL_SYSTEM_PACKAGES
  | Setup_advanced_security _ _ => FMSetupActionType.SETUP_ADVANCED_SECURITY
  | Install_jdbc_driver _ _ _ _ _ _ _ => FMSetupActionType.INSTALL_JDBC_DRIVER
  | Setup_k8s_and_spark => FMSetupActionType.SETUP_K8S_AND_SPARK
  end.

(** The enumeration argument of a call is not a member. *)
Definition not_a_member (c : static_call) : bool :=
  match c with
  | Run_ansible_task (NotMember _) _ => true
  | Install_jdbc_driver (NotMember _) _ _ _ _ _ _ => true
  | _ => false
  end.

End FMSetupAction.

(** ** Chains of setters of any length *)

(** [creator.with_a(...).with_b(...)...]: the calls run in order on the
    creator; the first exception ends the chain. *)
Fixpoint instance_chain (calls : list InstanceSetter.call)
    : M FMInstanceCreator.t unit :=
  match calls with
  | [] => ret tt
  | c :: calls' => InstanceSetter.run c ;; instance_chain calls'
  end.

Fixpoint template_chain (calls : list TemplateSetter.call)
    : M FMInstanceSettingsTemplateCreator.t unit :=
  match calls with
  | [] => ret tt
  | c :: calls' => TemplateSetter.run c ;; template_chain calls'
  end.

(** A value [with_dss_node_type] accepts. *)
Definition node_type_ok (v : json) : Prop :=
  v = JStr "design" \/ v = JStr "automation" \/ v = JStr "deployer".

(** Two states of a handle of an instance that agree on the class, the
    client and the id. *)
Definition same_identity (h h' : FMInstance.t) : Prop :=
  FMInstance.cls h' = FMInstance.cls h
  /\ FMInstance.client h' = FMInstance.client h
  /\ FMInstance.id h' = FMInstance.id h.

(** A successful answer without a body. *)
Definition no_content : response :=
  mkResponse 204 "" None.

(** ** Proof steps that recur *)

(** The operations of the monad, unfolded. *)
Ltac unfold_monad :=
  unfold bind, ret, raise, of_res, get, self_, set_self, io in *.

(** Case analysis on the result of the first call of [f] in the goal: it
    returned, or it raised. *)
Ltac destruct_call f :=
  match goal with
  | |- context [f ?c ?m ?p ?a ?b ?d ?e ?w] =>
      let r := fresh "r" in
      let x := fresh "e" in
      let w' := fresh "w" in
      destruct (f c m p a b d e w) as [[r|x] w']
  end.

(** Membership in a list of literal keys, decided by computation. *)
Ltac key_in := simpl; intros ? ?; repeat (intuition (subst; auto)).

(** The end of such a proof: the setter returned, so the creator is of
    the class that has the method, and its data is the run of
    assignments named. *)
Ltac template_setter_returned :=
  let H := fresh "H" in
  intros [[] ? ?] ? H;
  unfold FMInstanceSettingsTemplateCreator.aws_only,
         FMInstanceSettingsTemplateCreator.azure_only, bind, get, ret, raise
    in H;
  cbn in H; try discriminate;
  injection H as <-; reflexivity.

(** The state a setter leaves, laid open: the setter unfolded on a
    creator given by its fields, and its tests decided case by case. *)
Ltac open_setter :=
  unfold FMInstanceCreator.with_dss_node_type,
         FMInstanceCreator.with_cloud_instance_type,
         FMInstanceCreator.with_data_volume_options,
         FMInstanceCreator.with_cloud_tags,
         FMInstanceCreator.with_fm_tags,
         FMInstanceCreator.with_aws_root_volume_options,
         FMInstanceCreator.set_data,
         FMInstanceSettingsTemplateCreator.with_setup_actions,
         FMInstanceSettingsTemplateCreator.with_license,
         FMInstanceSettingsTemplateCreator.with_aws_keypair,
         FMInstanceSettingsTemplateCreator.with_startup_instance_profile,
         FMInstanceSettingsTemplateCreator.with_runtime_instance_profile,
         FMInstanceSettingsTemplateCreator.with_restrict_aws_metadata_server_access,
         FMInstanceSettingsTemplateCreator.with_default_aws_api_access_mode,
         FMInstanceSettingsTemplateCreator.with_keypair_aws_api_access_mode,
         FMInstanceSettingsTemplateCreator.with_ssh_key,
         FMInstanceSettingsTemplateCreator.with_startup_managed_identity,
         FMInstanceSettingsTemplateCreator.with_runtime_managed_identity,
         FMInstanceSettingsTemplateCreator.aws_only,
         FMInstanceSettingsTemplateCreator.azure_only,
         FMInstanceSettingsTemplateCreator.set_data,
         bind, get, ret, raise;
  cbv zeta;
  cbn [fst snd FMInstanceCreator.cls FMInstanceCreator.client
       FMInstanceCreator.data FMInstanceSettingsTemplateCreator.cls
       FMInstanceSettingsTemplateCreator.client
       FMInstanceSettingsTemplateCreator.data];
  repeat (match goal with
          | |- context [if ?b then _ else _] => destruct b eqn:?
          | |- context [match default ?e (Value JNull) with _ => _ end] =>
              destruct (default e (Value JNull))
          end;
          cbn [fst snd FMInstanceCreator.cls FMInstanceCreator.client
               FMInstanceCreator.data FMInstanceSettingsTemplateCreator.cls
               FMInstanceSettingsTemplateCreator.client
               FMInstanceSettingsTemplateCreator.data]).

(** A key that is in no literal list of the hypothesis [H] differs from
    every literal it is compared with. *)
Ltac other_key k H :=
  repeat match goal with
         | |- context [String.eqb k ?l] =>
             destruct (String.eqb_spec k l);
             [exfalso; apply H; subst; simpl; tauto|]
         end.

(** The bindings of two dictionaries built by assignments, compared key
    by key; [get_set] is the lemma on a lookup after an assignment. *)
Ltac same_bindings get_set :=
  let k := fresh "k" in
  intros k; rewrite ?get_set;
  repeat match goal with
         | |- context [String.eqb k ?l] => destruct (String.eqb k l)
         end;
  reflexivity.

(** * Properties *)

(** ** The transport shim *)

Section TransportProperties.
Context {R : Runtime}.

(** [_perform_http] issues one request, the one [request_of] describes,
    whatever the answer. *)
Lemma perform_http_sends :
  forall self method path params body stream files raw_body w,
    issued w
      (snd (FMClient._perform_http self method path params body stream files
              raw_body w))
      [request_of self method path params body stream files raw_body].
Proof.
  intros. unfold issued, FMClient._perform_http, FMClient.request_, request_of.
  unfold_monad.
  destruct body, raw_body; simpl;
    match goal with
    | |- context [session_request ?s ?r ?q] =>
        destruct (session_request s r q) as [[http_res|] srv]
    end; simpl; try reflexivity;
    destruct (raise_for_status http_res); simpl; try reflexivity;
    destruct (json_body http_res) as [[]|]; reflexivity.
Qed.

(** What [_perform_http] does with the answer of the server. *)
Lemma perform_http_answered :
  forall self method path params body stream files raw_body w http_res srv,
    session_request (FMClient._session self) (remote w)
      (request_of self method path params body stream files raw_body)
    = (Answered http_res, srv) ->
    FMClient._perform_http self method path params body stream files raw_body w
    = let w' :=
        mkWorld srv
          (sent w ++ [request_of self method path params body stream files
                        raw_body])%list in
      if raise_for_status http_res then
        match json_body http_res with
        | Some (JDict d) =>
            (Raise (DataikuException
                      (py_str (field d "errorType" "Unknown error") ++ ": "
                         ++ py_str (field d "message" "No message"))), w')
        | Some _ => (Raise (AttributeError "get"), w')
        | None =>
            (Raise (DataikuException ("Unknown error: " ++ text http_res)), w')
        end
      else (Ok http_res, w').
Proof.
  intros self method path params body stream files raw_body w http_res srv H.
  unfold FMClient._perform_http, FMClient.request_. unfold_monad.
  unfold request_of in H. cbv zeta.
  rewrite H. unfold request_of. simpl.
  destruct (raise_for_status http_res); [|reflexivity].
  destruct (json_body http_res) as [[]|]; reflexivity.
Qed.

(** A transport failure is not translated. *)
Lemma perform_http_failed :
  forall self method path params body stream files raw_body w srv,
    session_request (FMClient._session self) (remote w)
      (request_of self method path params body stream files raw_body)
    = (Failed, srv) ->
    FMClient._perform_http self method path params body stream files raw_body w
    = (Raise RequestException,
       mkWorld srv
         (sent w ++ [request_of self method path params body stream files
                       raw_body])%list).
Proof.
  intros self method path params body stream files raw_body w srv H.
  unfold FMClient._perform_http, FMClient.request_. unfold_monad.
  unfold request_of in *.
  destruct raw_body, body; simpl in *; rewrite H; reflexivity.
Qed.

Lemma occurs_in_prefix : forall s t, occurs_in s (s ++ t).
Proof.
  intros s t. exists "", t. reflexivity.
Qed.

Lemma append_assoc : forall a b c : string, (a ++ b) ++ c = a ++ (b ++ c).
Proof.
  induction a as [|x a IH]; intros; simpl; [reflexivity | now rewrite IH].
Qed.

Lemma append_nil_r : forall a : string, a ++ "" = a.
Proof.
  induction a as [|x a IH]; simpl; [reflexivity | now rewrite IH].
Qed.

Lemma occurs_in_suffix : forall s t, occurs_in t (s ++ t).
Proof.
  intros s t. exists s, "". now rewrite append_nil_r.
Qed.

Lemma occurs_in_after : forall s sep t, occurs_in t (s ++ sep ++ t).
Proof.
  intros s sep t. exists (s ++ sep), "".
  now rewrite append_nil_r, append_assoc.
Qed.

End TransportProperties.

Section TransportClaims.
Context {R : Runtime}.

(** C1 (as amended). When the server answers with a client or server
    error status (4xx or 5xx), [_perform_http] ends with exactly one
    exception, a [DataikuException], after the one request it issued: if
    the body decodes to a JSON object, the message is the object's
    [errorType] and [message] fields joined by a colon, with
    [Unknown error] and [No message] standing in for a missing field, so
    both occur in it; if the body does not decode as JSON, the message is
    [Unknown error: ] followed by the raw text of the response. *)
Theorem perform_http_error_is_DataikuException :
  forall self method path params body stream files raw_body w http_res srv,
    session_request (FMClient._session self) (remote w)
      (request_of self method path params body stream files raw_body)
    = (Answered http_res, srv) ->
    (400 <= status_code http_res < 600)%Z ->
    let run :=
      FMClient._perform_http self method path params body stream files
        raw_body w in
    (forall d, json_body http_res = Some (JDict d) ->
       exists msg,
         fst run = Raise (DataikuException msg)
         /\ msg = py_str (field d "errorType" "Unknown error") ++ ": "
                    ++ py_str (field d "message" "No message")
         /\ occurs_in (py_str (field d "errorType" "Unknown error")) msg
         /\ occurs_in (py_str (field d "message" "No message")) msg)
    /\ (json_body http_res = None ->
        exists msg,
          fst run = Raise (DataikuException msg)
          /\ msg = "Unknown error: " ++ text http_res
          /\ occurs_in (text http_res) msg)
    /\ issued w (snd run)
         [request_of self method path params body stream files raw_body].
Proof.
  intros self method path params body stream files raw_body w http_res srv
         Hreq Hstatus run.
  assert (Hraise : raise_for_status http_res = true).
  { unfold raise_for_status. apply andb_true_iff. split.
    - apply Z.leb_le. lia.
    - apply Z.ltb_lt. lia. }
  pose proof (perform_http_answered _ _ _ _ _ _ _ _ _ _ _ Hreq) as E.
  rewrite Hraise in E. cbv zeta in E. fold run in E.
  repeat split.
  - intros d Hd. rewrite Hd in E. rewrite E. cbn [fst].
    eexists. split; [reflexivity|]. split; [reflexivity|]. split.
    + apply occurs_in_prefix.
    + apply occurs_in_after.
  - intros Hnone. rewrite Hnone in E. rewrite E. cbn [fst].
    eexists. split; [reflexivity|]. split; [reflexivity|].
    apply occurs_in_suffix.
  - apply perform_http_sends.
Qed.

(** C10. When both [body] and [raw_body] are given, the call behaves as
    if [body] had not been given: the serialization of [body] is dropped
    and the request carries [raw_body] as its payload. *)
Theorem raw_body_takes_precedence :
  forall self method path params (b : json) stream files (r : string) w,
    FMClient._perform_http self method path params (Some b) stream files
      (Some r) w
    = FMClient._perform_http self method path params None stream files
        (Some r) w
    /\ issued w
         (snd (FMClient._perform_http self method path params (Some b) stream
                 files (Some r) w))
         [mkRequest method
            (py_str (FMClient.host self) ++ "/api/public" ++ path)
            params (Some r) files stream].
Proof.
  intros. split.
  - reflexivity.
  - apply (perform_http_sends self method path params (Some b) stream files
             (Some r) w).
Qed.

(** [_perform_json] and [_perform_empty] issue the request of
    [_perform_http] and no other. *)
Lemma perform_json_sends :
  forall self method path params body files raw_body w,
    issued w
      (snd (FMClient._perform_json self method path params body files
              raw_body w))
      [request_of self method path params body false files raw_body].
Proof.
  intros. unfold FMClient._perform_json, bind.
  pose proof (perform_http_sends self method path params body false files
                raw_body w) as H.
  destruct (FMClient._perform_http self method path params body false files
              raw_body w) as [[http_res|e] w']; simpl in *; [|exact H].
  destruct (json_body http_res); exact H.
Qed.

Lemma perform_empty_sends :
  forall self method path params body files raw_body w,
    issued w
      (snd (FMClient._perform_empty self method path params body files
              raw_body w))
      [request_of self method path params body false files raw_body].
Proof.
  intros. unfold FMClient._perform_empty, bind.
  pose proof (perform_http_sends self method path params body false files
                raw_body w) as H.
  destruct (FMClient._perform_http self method path params body false files
              raw_body w) as [[http_res|e] w']; exact H.
Qed.

(** C7. A tenant-scoped call is the plain call on the path prefixed with
    [/tenants/] and the tenant id of the client: same result, same world
    afterwards, and the one request it issues goes to the prefixed
    path. *)
Theorem tenant_variants_prefix_path :
  forall self method path params body files raw_body w,
    let prefixed := "/tenants/" ++ py_str (FMClient.__tenant_id self) ++ path in
    FMClient._perform_tenant_json self method path params body files raw_body w
    = FMClient._perform_json self method prefixed params body files raw_body w
    /\ FMClient._perform_tenant_empty self method path params body files
         raw_body w
       = FMClient._perform_empty self method prefixed params body files
           raw_body w
    /\ issued w
         (snd (FMClient._perform_tenant_json self method path params body
                 files raw_body w))
         [request_of self method prefixed params body false files raw_body]
    /\ issued w
         (snd (FMClient._perform_tenant_empty self method path params body
                 files raw_body w))
         [request_of self method prefixed params body false files raw_body]
    /\ req_url (request_of self method prefixed params body false files raw_body)
       = py_str (FMClient.host self) ++ "/api/public" ++ "/tenants/"
           ++ py_str (FMClient.__tenant_id self) ++ path.
Proof.
  intros. repeat split.
  - apply perform_json_sends.
  - apply perform_empty_sends.
Qed.

End TransportClaims.

(** C1, on the examples of the specification: status 404 with the JSON
    body gives the message [NotFound: no such instance]; status 500 with
    the text [internal error] gives a message that holds the text. *)
Lemma perform_http_error_examples :
  fst (@FMClient._perform_http (example_runtime (answer_with not_found))
         example_client "GET" "/tenants/main/instances/i-9"
         None None false None None (fresh_world _))
  = Raise (DataikuException "NotFound: no such instance")
  /\ exists msg,
       fst (@FMClient._perform_http
              (example_runtime (answer_with internal_error))
              example_client "GET" "/tenants/main/instances/i-9"
              None None false None None (fresh_world _))
       = Raise (DataikuException msg)
       /\ occurs_in "internal error" msg.
Proof.
  split.
  - destruct (@perform_http_error_is_DataikuException
                (example_runtime (answer_with not_found))
                example_client "GET" "/tenants/main/instances/i-9"
                None None false None None (fresh_world _) not_found 1%nat
                eq_refl ltac:(simpl; lia))
      as [H _].
    destruct (H _ eq_refl) as [msg [E [Hmsg _]]].
    rewrite E, Hmsg. reflexivity.
  - destruct (@perform_http_error_is_DataikuException
                (example_runtime (answer_with internal_error))
                example_client "GET" "/tenants/main/instances/i-9"
                None None false None None (fresh_world _) internal_error 1%nat
                eq_refl ltac:(simpl; lia))
      as [_ [H _]].
    destruct (H eq_refl) as [msg [E [_ Hocc]]].
    exists msg. split; [exact E | exact Hocc].
Defined.

(** C1 as stated fails: a response whose status is not 2xx need not be an
    error.  With status 304 [raise_for_status] does not raise, and
    [_perform_http] returns the response to its caller. *)
Lemma perform_http_returns_not_modified :
  ((status_code not_modified <? 200) || (300 <=? status_code not_modified))%Z
  = true
  /\ fst (@FMClient._perform_http (example_runtime (answer_with not_modified))
            example_client "GET" "/tenants/main/instances/i-9"
            None None false None None (fresh_world _))
     = Ok not_modified.
Proof.
  split; reflexivity.
Qed.

(** An error whose body decodes to JSON that is not an object (a list, a
    string, a number, [null]) ends with the [AttributeError] of the
    missing [get] method, not with a [DataikuException]. *)
Lemma perform_http_error_body_not_an_object :
  forall {R : Runtime} self method path params body stream files raw_body w
         http_res srv v,
    session_request (FMClient._session self) (remote w)
      (request_of self method path params body stream files raw_body)
    = (Answered http_res, srv) ->
    raise_for_status http_res = true ->
    json_body http_res = Some v ->
    (forall d, v <> JDict d) ->
    fst (FMClient._perform_http self method path params body stream files
           raw_body w)
    = Raise (AttributeError "get").
Proof.
  intros R self method path params body stream files raw_body w http_res srv v
         Hreq Hraise Hv Hnot.
  rewrite (perform_http_answered _ _ _ _ _ _ _ _ _ _ _ Hreq).
  cbv zeta. rewrite Hraise, Hv.
  destruct v; try reflexivity.
  exfalso. eapply Hnot. reflexivity.
Qed.

(** ** The construction of the client *)

(** C8. [FMClient.__init__] raises [ValueError] when the cloud is neither
    [AWS] nor [Azure], and when the key id or the key secret is [None];
    a client it returns has the cloud it was given, which is [AWS] or
    [Azure], so that both creator factories return a creator and never
    [None]. *)
Theorem FMClient_init_validates :
  forall host api_key_id api_key_secret cloud tenant_id extra_headers,
    let made :=
      FMClient.__init__ host api_key_id api_key_secret cloud tenant_id
        extra_headers in
    (cloud <> JStr "AWS" /\ cloud <> JStr "Azure" -> is_ValueError made = true)
    /\ (api_key_id = JNull \/ api_key_secret = JNull ->
        is_ValueError made = true)
    /\ (forall c, made = Ok c ->
          FMClient.cloud c = cloud
          /\ (cloud = JStr "AWS" \/ cloud = JStr "Azure")
          /\ (forall label template_id network_id image_id,
                new_instance_creator c label template_id network_id image_id
                <> None)
          /\ (forall label,
                new_instance_template_creator c label <> None)).
Proof.
  intros host api_key_id api_key_secret cloud tenant_id extra_headers made.
  subst made. unfold FMClient.__init__.
  assert (Hin : py_in cloud ["AWS"; "Azure"] = true ->
                cloud = JStr "AWS" \/ cloud = JStr "Azure").
  { destruct cloud; simpl; try discriminate.
    destruct (String.eqb_spec s "AWS") as [->|]; [now left|].
    destruct (String.eqb_spec s "Azure") as [->|]; [now right|].
    discriminate. }
  repeat split.
  - intros [Haws Hazure].
    destruct (py_in cloud ["AWS"; "Azure"]) eqn:E; [|reflexivity].
    destruct (Hin eq_refl); contradiction.
  - intros Hkey.
    destruct (py_in cloud ["AWS"; "Azure"]); [|reflexivity]. simpl.
    destruct Hkey as [-> | ->]; simpl; [reflexivity|].
    destruct (is_not_None api_key_id); reflexivity.
  - destruct (py_in cloud ["AWS"; "Azure"]); [|discriminate]. simpl in H.
    destruct (is_not_None api_key_id && is_not_None api_key_secret);
      [|discriminate].
    injection H as <-. reflexivity.
  - destruct (py_in cloud ["AWS"; "Azure"]); [|discriminate].
    apply Hin. reflexivity.
  - intros label template_id network_id image_id.
    destruct (py_in cloud ["AWS"; "Azure"]) eqn:E; [|discriminate].
    simpl in H.
    destruct (is_not_None api_key_id && is_not_None api_key_secret);
      [|discriminate].
    injection H as <-. unfold new_instance_creator. simpl.
    destruct (Hin eq_refl) as [-> | ->]; simpl; discriminate.
  - intros label.
    destruct (py_in cloud ["AWS"; "Azure"]) eqn:E; [|discriminate].
    simpl in H.
    destruct (is_not_None api_key_id && is_not_None api_key_secret);
      [|discriminate].
    injection H as <-. unfold new_instance_template_creator. simpl.
    destruct (Hin eq_refl) as [-> | ->]; simpl; discriminate.
Qed.

(** C8, on an example of each kind: a cloud that is not known, a key that
    is missing, and a client that is made. *)
Lemma FMClient_init_examples :
  is_ValueError
    (FMClient.__init__ (JStr "https://fm.example.com") (JStr "id")
       (JStr "secret") (JStr "GCP") (JStr "main") None) = true
  /\ is_ValueError
       (FMClient.__init__ (JStr "https://fm.example.com") JNull
          (JStr "secret") (JStr "Azure") (JStr "main") None) = true
  /\ new_instance_template_creator example_client (JStr "template") <> None.
Proof.
  split; [|split].
  - destruct (FMClient_init_validates (JStr "https://fm.example.com")
                (JStr "id") (JStr "secret") (JStr "GCP") (JStr "main") None)
      as [H _].
    apply H. split; discriminate.
  - destruct (FMClient_init_validates (JStr "https://fm.example.com") JNull
                (JStr "secret") (JStr "Azure") (JStr "main") None)
      as [_ [H _]].
    apply H. left. reflexivity.
  - destruct (FMClient_init_validates (JStr "https://fm.example.com")
                (JStr "key-id") (JStr "key-secret") (JStr "AWS") (JStr "main")
                None)
      as [_ [_ H]].
    destruct (H example_client eq_refl) as [_ [_ [_ Hcreator]]].
    apply Hcreator.
Defined.

(** ** The builders *)

(** C9. [with_data_volume_options] raises [TypeError] exactly when the
    [data_volume_encryption] argument is not a member of
    [FMInstanceEncryptionMode]; then the creator is left as it was.  In
    particular the call raises when the argument is omitted, its default
    being [None].  With a member it returns. *)
Theorem with_data_volume_options_raises_iff_not_a_member :
  forall data_volume_type data_volume_size data_volume_size_max
         data_volume_IOPS data_volume_encryption data_volume_encryption_key
         (self : FMInstanceCreator.t),
    let run :=
      FMInstanceCreator.with_data_volume_options data_volume_type
        data_volume_size data_volume_size_max data_volume_IOPS
        data_volume_encryption data_volume_encryption_key self in
    let given := default data_volume_encryption (Value JNull) in
    (is_TypeError (fst run) = true <-> forall m, given <> Member m)
    /\ ((forall m, given <> Member m) -> snd run = self)
    /\ (forall m, given = Member m -> fst run = Ok tt)
    /\ (data_volume_encryption = None ->
        is_TypeError (fst run) = true /\ snd run = self).
Proof.
  intros a b c d e f self run given. subst run given.
  unfold FMInstanceCreator.with_data_volume_options.
  destruct e as [[v | m] |]; simpl; repeat split;
    try discriminate; try reflexivity; try tauto.
  - intros H. exfalso. apply (H m). reflexivity.
  - intros H. exfalso. apply (H m). reflexivity.
Qed.

(** C9, on examples: the encryption mode omitted, given as a string, and
    given as a member of the enumeration. *)
Lemma with_data_volume_options_examples :
  let self :=
    FMInstanceCreator.__init__ AWS example_client (JStr "dss") (JStr "ist-1")
      (JStr "vn-1") (JStr "dss-9.0.3-default") in
  (is_TypeError
     (fst (FMInstanceCreator.with_data_volume_options (Some (JStr "gp2"))
             (Some (JInt 50)) None None None None self)) = true
   /\ snd (FMInstanceCreator.with_data_volume_options (Some (JStr "gp2"))
             (Some (JInt 50)) None None None None self) = self)
  /\ is_TypeError
       (fst (FMInstanceCreator.with_data_volume_options None None None None
               (Some (Value (JStr "NONE"))) None self)) = true
  /\ fst (FMInstanceCreator.with_data_volume_options None None None None
            (Some (Member TENANT)) None self) = Ok tt.
Proof.
  intros self. split; [|split].
  - destruct (with_data_volume_options_raises_iff_not_a_member
                (Some (JStr "gp2")) (Some (JInt 50)) None None None None self)
      as [_ [_ [_ H]]].
    apply H. reflexivity.
  - destruct (with_data_volume_options_raises_iff_not_a_member
                None None None None (Some (Value (JStr "NONE"))) None self)
      as [[_ H] _].
    apply H. intros m. discriminate.
  - destruct (with_data_volume_options_raises_iff_not_a_member
                None None None None (Some (Member TENANT)) None self)
      as [_ [_ [H _]]].
    apply (H TENANT). reflexivity.
Defined.

(** ** The resource handles *)

Section HandleProperties.
Context {R : Runtime}.

(** A tenant-scoped call that returns has been answered by the server
    with a response that is no error; [_perform_tenant_json] returns the
    decoded body of that response. *)
Lemma perform_tenant_empty_returns :
  forall c method path body w w',
    FMClient._perform_tenant_empty c method path None body None None w
    = (Ok tt, w') ->
    exists http_res,
      session_request (FMClient._session c) (remote w)
        (tenant_request c method path body)
      = (Answered http_res, remote w')
      /\ raise_for_status http_res = false
      /\ issued w w' [tenant_request c method path body].
Proof.
  intros c method path body w w' H.
  unfold FMClient._perform_tenant_empty, FMClient._perform_empty, bind in H.
  unfold tenant_request.
  set (p := "/tenants/" ++ py_str (FMClient.__tenant_id c) ++ path) in *.
  destruct (session_request (FMClient._session c) (remote w)
              (request_of c method p None body false None None))
    as [[http_res|] srv] eqn:E.
  - rewrite (perform_http_answered _ _ _ _ _ _ _ _ _ _ _ E) in H.
    cbv zeta in H.
    destruct (raise_for_status http_res) eqn:Hs.
    + destruct (json_body http_res) as [[]|]; discriminate.
    + unfold ret in H. injection H as <-. exists http_res.
      split; [reflexivity|]. split; [exact Hs|]. reflexivity.
  - rewrite (perform_http_failed _ _ _ _ _ _ _ _ _ _ E) in H. discriminate.
Qed.

Lemma perform_tenant_json_returns :
  forall c method path body w w' v,
    FMClient._perform_tenant_json c method path None body None None w
    = (Ok v, w') ->
    exists http_res,
      session_request (FMClient._session c) (remote w)
        (tenant_request c method path body)
      = (Answered http_res, remote w')
      /\ raise_for_status http_res = false
      /\ json_body http_res = Some v
      /\ issued w w' [tenant_request c method path body].
Proof.
  intros c method path body w w' v H.
  unfold FMClient._perform_tenant_json, FMClient._perform_json, bind in H.
  unfold tenant_request.
  set (p := "/tenants/" ++ py_str (FMClient.__tenant_id c) ++ path) in *.
  destruct (session_request (FMClient._session c) (remote w)
              (request_of c method p None body false None None))
    as [[http_res|] srv] eqn:E.
  - rewrite (perform_http_answered _ _ _ _ _ _ _ _ _ _ _ E) in H.
    cbv zeta in H.
    destruct (raise_for_status http_res) eqn:Hs.
    + destruct (json_body http_res) as [[]|]; discriminate.
    + destruct (json_body http_res) as [v'|] eqn:Hj; [|discriminate].
      unfold ret in H. injection H as <- <-. exists http_res.
      split; [reflexivity|]. split; [exact Hs|]. split; [exact Hj|].
      reflexivity.
  - rewrite (perform_http_failed _ _ _ _ _ _ _ _ _ _ E) in H. discriminate.
Qed.

(** Whatever its result, a tenant-scoped call issues its one request. *)
Lemma perform_tenant_json_issues :
  forall c method path body w,
    issued w
      (snd (FMClient._perform_tenant_json c method path None body None None w))
      [tenant_request c method path body].
Proof.
  intros. apply perform_json_sends.
Qed.

Lemma perform_tenant_empty_issues :
  forall c method path body w,
    issued w
      (snd (FMClient._perform_tenant_empty c method path None body None None w))
      [tenant_request c method path body].
Proof.
  intros. apply perform_empty_sends.
Qed.

Lemma issued_trans :
  forall (w1 w2 w3 : world) l1 l2,
    issued w1 w2 l1 -> issued w2 w3 l2 -> issued w1 w3 (l1 ++ l2)%list.
Proof.
  unfold issued. intros w1 w2 w3 l1 l2 H1 H2.
  rewrite H2, H1. now rewrite app_assoc.
Qed.

Lemma save_run_returns :
  forall c path data w w' v,
    save_run c path data w = (Ok v, w') ->
    exists put_answer srv get_answer,
      session_request (FMClient._session c) (remote w)
        (tenant_request c "PUT" path (Some data))
      = (Answered put_answer, srv)
      /\ session_request (FMClient._session c) srv
           (tenant_request c "GET" path None)
         = (Answered get_answer, remote w')
      /\ json_body get_answer = Some v
      /\ issued w w' [tenant_request c "PUT" path (Some data);
                      tenant_request c "GET" path None].
Proof.
  intros c path data w w' v H. unfold save_run in H.
  destruct (FMClient._perform_tenant_empty c "PUT" path None (Some data) None
              None w) as [[[]|e] w1] eqn:E1; [|discriminate].
  apply perform_tenant_empty_returns in E1 as [r1 [Hput [_ I1]]].
  apply perform_tenant_json_returns in H as [r2 [Hget [_ [Hj I2]]]].
  exists r1, (remote w1), r2. repeat split; try assumption.
  apply (issued_trans _ _ _ _ _ I1 I2).
Qed.

Lemma save_run_issues :
  forall c path data w,
    let run := save_run c path data w in
    issued w (snd run) [tenant_request c "PUT" path (Some data)]
    \/ issued w (snd run) [tenant_request c "PUT" path (Some data);
                           tenant_request c "GET" path None].
Proof.
  intros c path data w run. subst run. unfold save_run.
  pose proof (perform_tenant_empty_issues c "PUT" path (Some data) w) as I1.
  destruct (FMClient._perform_tenant_empty c "PUT" path None (Some data) None
              None w) as [[[]|e] w1]; simpl in I1.
  - right.
    apply (issued_trans _ _ _ _ _ I1
             (perform_tenant_json_issues c "GET" path None w1)).
  - left. exact I1.
Qed.

(** [FMInstance.save] and [FMInstanceSettingsTemplate.save] are that
    run. *)
Lemma FMInstance_save_run :
  forall self c w,
    FMInstance.client self = FMClient_object c ->
    FMInstance.save (self, w)
    = match save_run c ("/instances/" ++ py_str (FMInstance.id self))
              (FMInstance.instance_data self) w with
      | (Ok v, w') =>
          (Ok tt,
           (FMInstance.mk (FMInstance.cls self) (FMInstance.client self) v
              (FMInstance.id self), w'))
      | (Raise e, w') => (Raise e, (self, w'))
      end.
Proof.
  intros self c w Hc. unfold FMInstance.save, save_run. unfold_monad.
  cbn [fst snd]. rewrite Hc.
  unfold call_perform_tenant_empty, call_perform_tenant_json.
  destruct_call FMClient._perform_tenant_empty; [|reflexivity].
  cbn [fst snd].
  destruct_call FMClient._perform_tenant_json; reflexivity.
Qed.

Lemma FMInstanceSettingsTemplate_save_run :
  forall self c w,
    FMInstanceSettingsTemplate.client self = FMClient_object c ->
    FMInstanceSettingsTemplate.save (self, w)
    = match save_run c
              ("/instance-settings-templates/"
                 ++ py_str (FMInstanceSettingsTemplate.id self))
              (FMInstanceSettingsTemplate.ist_data self) w with
      | (Ok v, w') =>
          (Ok tt,
           (FMInstanceSettingsTemplate.mk
              (FMInstanceSettingsTemplate.client self)
              (FMInstanceSettingsTemplate.id self) v, w'))
      | (Raise e, w') => (Raise e, (self, w'))
      end.
Proof.
  intros self c w Hc.
  unfold FMInstanceSettingsTemplate.save, save_run. unfold_monad.
  cbn [fst snd]. rewrite Hc.
  unfold call_perform_tenant_empty, call_perform_tenant_json.
  destruct_call FMClient._perform_tenant_empty; [|reflexivity].
  cbn [fst snd].
  destruct_call FMClient._perform_tenant_json; reflexivity.
Qed.

End HandleProperties.

Section SaveClaim.
Context {R : Runtime}.


End SaveClaim.


Section ActionProperties.
Context {R : Runtime}.

Lemma set_instance_data_run :
  forall key x self (w : world),
    FMInstance.set_instance_data key x (self, w)
    = match py_setitem (FMInstance.instance_data self) key x with
      | Ok d =>
          (Ok tt,
           (FMInstance.mk (FMInstance.cls self) (FMInstance.client self) d
              (FMInstance.id self), w))
      | Raise e => (Raise e, (self, w))
      end.
Proof.
  intros. unfold FMInstance.set_instance_data. unfold_monad. cbn [fst snd].
  destruct (py_setitem (FMInstance.instance_data self) key x); reflexivity.
Qed.

Lemma bind_self :
  forall T A (f : T -> M (T * world) A) (s : T) (w : world),
    bind self_ f (s, w) = f s (s, w).
Proof.
  reflexivity.
Qed.

Lemma issued_nil : forall w : world, issued w w [].
Proof.
  intros w. unfold issued. now rewrite app_nil_r.
Qed.

(** A [save()] is one save. *)
Lemma FMInstance_save_one_save :
  forall self c w,
    FMInstance.client self = FMClient_object c ->
    one_save c ("/instances/" ++ py_str (FMInstance.id self))
      (fst (FMInstance.save (self, w))) w (snd (snd (FMInstance.save (self, w)))).
Proof.
  intros self c w Hc. rewrite (FMInstance_save_run self c w Hc).
  set (path := "/instances/" ++ py_str (FMInstance.id self)).
  pose proof (save_run_issues c path (FMInstance.instance_data self) w) as I.
  cbv zeta in I.
  destruct (save_run c path (FMInstance.instance_data self) w)
    as [[v|e] w'] eqn:E; cbn [fst snd] in *.
  - exists (FMInstance.instance_data self).
    destruct (save_run_returns _ _ _ _ _ _ E) as [_ [_ [_ [_ [_ [_ Hi]]]]]].
    exact Hi.
  - right. exists (FMInstance.instance_data self). exact I.
Qed.

(** Assignments to the local data, then a save: still one save. *)
Lemma set_then_save :
  forall key x (rest : M (FMInstance.t * world) unit) c path,
    (forall self w,
       FMInstance.client self = FMClient_object c ->
       "/instances/" ++ py_str (FMInstance.id self) = path ->
       one_save c path (fst (rest (self, w))) w (snd (snd (rest (self, w))))) ->
    forall self w,
      FMInstance.client self = FMClient_object c ->
      "/instances/" ++ py_str (FMInstance.id self) = path ->
      let run := bind (FMInstance.set_instance_data key x)
                      (fun _ => rest) (self, w) in
      one_save c path (fst run) w (snd (snd run)).
Proof.
  intros key x rest c path Hrest self w Hc Hp run. subst run.
  unfold bind. rewrite set_instance_data_run.
  destruct (py_setitem (FMInstance.instance_data self) key x) as [d|e].
  - apply Hrest; assumption.
  - left. apply issued_nil.
Qed.

Lemma save_is_one_save :
  forall c path self w,
    FMInstance.client self = FMClient_object c ->
    "/instances/" ++ py_str (FMInstance.id self) = path ->
    one_save c path (fst (FMInstance.save (self, w))) w
      (snd (snd (FMInstance.save (self, w)))).
Proof.
  intros c path self w Hc <-. apply FMInstance_save_one_save. exact Hc.
Qed.

(** An action that makes one tenant-scoped call and wraps the answer in
    a future issues the request of that call, whatever comes back. *)
Lemma action_issues :
  forall self c w action,
    FMInstance.client self = FMClient_object c ->
    let run :=
      bind self_
        (fun self : FMInstance.t =>
           bind (io (call_perform_tenant_json (FMInstance.client self) "GET"
                       (FMInstance.action_path self action) None None None None))
             (fun future => ret (FMFuture.from_resp (FMInstance.client self) future)))
        (self, w) in
    issued w (snd (snd run))
      [tenant_request c "GET" (FMInstance.action_path self action) None].
Proof.
  intros self c w action Hc run. subst run. unfold_monad. cbn [fst snd].
  rewrite Hc. unfold call_perform_tenant_json.
  pose proof (perform_tenant_json_issues c "GET"
                (FMInstance.action_path self action) None w) as I.
  destruct (FMClient._perform_tenant_json c "GET"
              (FMInstance.action_path self action) None None None None w)
    as [[v|e] w']; exact I.
Qed.

End ActionProperties.

Section ActionClaim.
Context {R : Runtime}.

(** C6 (as amended). On a handle that holds a client, [reprovision],
    [deprovision], [restart_dss] and [delete] issue exactly one request
    per call, whatever the server answers.  A [set_*] method assigns to
    the local data and then calls [save()]: a call that returns has
    issued two requests, the PUT and the GET that follows it; a call
    that raises has issued none (the assignment raised), the PUT alone
    (the PUT failed) or both.  No request is repeated. *)
Theorem actions_issue_one_request_and_setters_one_save :
  (forall (self : FMInstance.t) c w,
     FMInstance.client self = FMClient_object c ->
     let path := "/instances/" ++ py_str (FMInstance.id self) in
     issued w (snd (snd (FMInstance.reprovision (self, w))))
       [tenant_request c "GET" (FMInstance.action_path self "reprovision") None]
     /\ issued w (snd (snd (FMInstance.deprovision (self, w))))
          [tenant_request c "GET" (FMInstance.action_path self "deprovision") None]
     /\ issued w (snd (snd (FMInstance.restart_dss (self, w))))
          [tenant_request c "GET" (FMInstance.action_path self "restart-dss") None]
     /\ issued w (snd (snd (FMInstance.delete (self, w))))
          [tenant_request c "GET" (FMInstance.action_path self "delete") None]
     /\ (forall enable period keep,
           let run :=
             FMInstance.set_automated_snapshots enable period keep (self, w) in
           one_save c path (fst run) w (snd (snd run)))
     /\ (forall pem_data,
           let run := FMInstance.set_custom_certificate pem_data (self, w) in
           one_save c path (fst run) w (snd (snd run)))
     /\ (forall enable ip_id,
           let run := FMInstance.set_elastic_ip enable ip_id (self, w) in
           one_save c path (fst run) w (snd (snd run))))
  /\ (forall (self : FMInstanceSettingsTemplate.t) c w,
        FMInstanceSettingsTemplate.client self = FMClient_object c ->
        issued w (snd (snd (FMInstanceSettingsTemplate.delete (self, w))))
          [tenant_request c "DELETE"
             ("/instance-settings-templates/"
                ++ py_str (FMInstanceSettingsTemplate.id self)) None]).
Proof.
  split.
  - intros self c w Hc path.
    repeat (split; [apply (action_issues self c w _ Hc)|]).
    assert (Hsave : forall self w,
               FMInstance.client self = FMClient_object c ->
               "/instances/" ++ py_str (FMInstance.id self) = path ->
               one_save c path (fst (FMInstance.save (self, w))) w
                 (snd (snd (FMInstance.save (self, w)))))
      by (intros; now apply save_is_one_save).
    split; [|split].
    + intros enable period keep run. subst run.
      unfold FMInstance.set_automated_snapshots. cbv zeta.
      apply set_then_save; [|exact Hc|reflexivity]. intros s1 w1 H1 P1.
      apply set_then_save; [|exact H1|exact P1]. intros s2 w2 H2 P2.
      apply set_then_save; [exact Hsave|exact H2|exact P2].
    + intros pem_data run. subst run.
      unfold FMInstance.set_custom_certificate.
      apply set_then_save; [exact Hsave | exact Hc | reflexivity].
    + intros enable ip_id run. subst run.
      unfold FMInstance.set_elastic_ip. rewrite bind_self.
      destruct (FMInstance.cls self).
      * left. apply issued_nil.
      * apply set_then_save; [|exact Hc|reflexivity].
        intros. apply set_then_save; [exact Hsave|assumption|assumption].
      * apply set_then_save; [|exact Hc|reflexivity].
        intros. apply set_then_save; [exact Hsave|assumption|assumption].
  - intros self c w Hc.
    unfold FMInstanceSettingsTemplate.delete. unfold_monad. cbn [fst snd].
    rewrite Hc. unfold call_perform_tenant_json.
    pose proof (perform_tenant_json_issues c "DELETE"
                  ("/instance-settings-templates/"
                     ++ py_str (FMInstanceSettingsTemplate.id self)) None w) as I.
    destruct_call FMClient._perform_tenant_json; exact I.
Qed.

End ActionClaim.

(** C6, on examples: [reprovision] on the example handle issues its one
    GET; [set_custom_certificate] on the same handle, whose data is a
    dictionary, is one save; [delete] on the example template issues its
    one DELETE. *)
Lemma actions_examples :
  sent (snd (snd (@FMInstance.reprovision (example_runtime answer_ok)
                    (example_instance, fresh_world answer_ok))))
  = [mkRequest "GET"
       "https://fm.example.com/api/public/tenants/main/instances/i-1/actions/reprovision"
       None None None false]
  /\ @one_save (example_runtime answer_ok) example_client "/instances/i-1"
       (fst (@FMInstance.set_custom_certificate (example_runtime answer_ok)
               (JStr "PEM") (example_instance, fresh_world answer_ok)))
       (fresh_world answer_ok)
       (snd (snd (@FMInstance.set_custom_certificate
                    (example_runtime answer_ok)
                    (JStr "PEM") (example_instance, fresh_world answer_ok))))
  /\ sent (snd (snd (@FMInstanceSettingsTemplate.delete
                       (example_runtime answer_ok)
                       (example_template, fresh_world answer_ok))))
     = [mkRequest "DELETE"
          "https://fm.example.com/api/public/tenants/main/instance-settings-templates/ist-1"
          None None None false].
Proof.
  destruct (@actions_issue_one_request_and_setters_one_save
              (example_runtime answer_ok)) as [H HT].
  destruct (H example_instance example_client (fresh_world answer_ok) eq_refl)
    as [Hre [_ [_ [_ [_ [Hpem _]]]]]].
  split; [|split].
  - unfold issued in Hre. rewrite Hre. reflexivity.
  - apply (Hpem (JStr "PEM")).
  - pose proof (HT example_template example_client (fresh_world answer_ok)
                  eq_refl) as Hdel.
    unfold issued in Hdel. rewrite Hdel. reflexivity.
Defined.

(** C6 as stated fails for the [set_*] methods: when the server accepts
    the PUT, [set_custom_certificate] returns after two requests, the PUT
    and the GET that refreshes the handle. *)
Lemma set_custom_certificate_issues_two_requests :
  let run :=
    @FMInstance.set_custom_certificate (example_runtime answer_ok)
      (JStr "PEM") (example_instance, fresh_world answer_ok) in
  fst run = Ok tt
  /\ length (sent (snd (snd run))) = 2%nat
  /\ map req_method (sent (snd (snd run))) = ["PUT"; "GET"].
Proof.
  repeat split.
Qed.

(** ** The defect of [list_instances] *)

(** An object that has a key other than [instance_data], as every
    instance the server describes has ([id] at least), cannot be unpacked
    into the arguments of [FMInstance.__init__]. *)
Lemma call_with_kwargs_rejects_objects :
  forall c client d key v,
    dict_get key d = Some v ->
    key <> "instance_data" ->
    is_TypeError (FMInstance.call_with_kwargs c client (JDict d)) = true.
Proof.
  intros c client d key v Hget Hkey. unfold FMInstance.call_with_kwargs.
  assert (E : forallb (fun kv : string * json =>
                         String.eqb (fst kv) "instance_data") d = false).
  { induction d as [|[k x] d IH]; simpl in *; [discriminate|].
    destruct (String.eqb_spec key k) as [<-|Hne].
    - destruct (String.eqb_spec key "instance_data"); [contradiction|].
      reflexivity.
    - rewrite (IH Hget). apply andb_false_r. }
  rewrite E. reflexivity.
Qed.

(** C3, at the failing input: the server answers [GET /instances] with
    the list of one instance [{id: i-1}].  [list_instances] raises
    [TypeError] after its one request, where [get_instance], given the
    same object, returns the handle that holds it, and
    [list_instance_templates], given the same list, returns the list of
    one handle. *)
Theorem list_instances_raises_on_a_server_object :
  let instance := JDict [("id", JStr "i-1")] in
  let listing := answer_with (mkResponse 200 "" (Some (JList [instance]))) in
  let single := answer_with (mkResponse 200 "" (Some instance)) in
  fst (@list_instances (example_runtime listing) example_client
         (fresh_world listing))
  = Raise (TypeError "")
  /\ fst (@get_instance (example_runtime single) example_client (JStr "i-1")
            (fresh_world single))
     = Ok (FMInstance.mk FMInstance.Base (FMClient_object example_client)
             instance (JStr "i-1"))
  /\ fst (@list_instance_templates (example_runtime listing) example_client
            (fresh_world listing))
     = Ok [FMInstanceSettingsTemplate.mk (FMClient_object example_client)
             (JStr "i-1") instance].
Proof.
  repeat split.
Qed.

(** ** The defect of [FMInstanceSettingsTemplateCreator.create] *)

(** The handle [create] returns holds the creator where a client is
    expected, and its [save] and [delete] raise before any request. *)
Lemma create_template_handle_holds_the_creator :
  forall {R : Runtime} (self : FMInstanceSettingsTemplateCreator.t) w h w',
    FMInstanceSettingsTemplateCreator.create self w = (Ok h, w') ->
    FMInstanceSettingsTemplate.client h
    = FMInstanceSettingsTemplateCreator_object
        (FMInstanceSettingsTemplateCreator.cls self)
        (FMInstanceSettingsTemplateCreator.data self)
        (FMInstanceSettingsTemplateCreator.client self)
    /\ (forall w1,
          FMInstanceSettingsTemplate.save (h, w1)
          = (Raise (AttributeError "_perform_tenant_empty"), (h, w1)))
    /\ (forall w1,
          FMInstanceSettingsTemplate.delete (h, w1)
          = (Raise (AttributeError "_perform_tenant_json"), (h, w1))).
Proof.
  intros R self w h w' H.
  unfold FMInstanceSettingsTemplateCreator.create in H. unfold_monad.
  destruct (FMClient._perform_tenant_json
              (FMInstanceSettingsTemplateCreator.client self) "POST"
              "/instance-settings-templates" None
              (Some (JDict (FMInstanceSettingsTemplateCreator.data self)))
              None None w) as [[template|e] w1]; [|discriminate].
  unfold FMInstanceSettingsTemplate.__init__ in H.
  destruct (py_getitem template "id"); [|discriminate].
  injection H as <- <-.
  split; [reflexivity|].
  split; intros w2; reflexivity.
Qed.

(** C4, at the failing input: a creator made from the example client
    posts its data once and gets the template [{id: i-1, rev: 0}] back.
    The handle [create] returns refers to the creator, not to the client
    of the creator, and [save()] on it raises [AttributeError] without a
    request: the POST stays the only request issued. *)
Theorem create_template_handle_cannot_save :
  let creator :=
    FMInstanceSettingsTemplateCreator.__init__ AWS example_client (JStr "t") in
  let made :=
    @FMInstanceSettingsTemplateCreator.create (example_runtime answer_ok)
      creator (fresh_world answer_ok) in
  exists h,
    fst made = Ok h
    /\ map req_method (sent (snd made)) = ["POST"]
    /\ FMInstanceSettingsTemplate.client h
       = FMInstanceSettingsTemplateCreator_object AWS [("label", JStr "t")]
           example_client
    /\ FMInstanceSettingsTemplate.client h <> FMClient_object example_client
    /\ @FMInstanceSettingsTemplate.save (example_runtime answer_ok)
         (h, snd made)
       = (Raise (AttributeError "_perform_tenant_empty"), (h, snd made)).
Proof.
  eexists. repeat split. discriminate.
Qed.

(** ** Dictionaries *)

Lemma dict_get_set :
  forall k k' v d,
    dict_get k (dict_set k' v d)
    = if String.eqb k k' then Some v else dict_get k d.
Proof.
  intros k k' v d. induction d as [|[k0 v0] d IH]; simpl.
  - reflexivity.
  - destruct (String.eqb_spec k' k0) as [->|Hne]; simpl.
    + destruct (String.eqb k k0); reflexivity.
    + rewrite IH. destruct (String.eqb_spec k k0) as [->|].
      * destruct (String.eqb_spec k0 k') as [<-|]; [contradiction|reflexivity].
      * reflexivity.
Qed.

Lemma dict_get_app :
  forall k d1 d2,
    dict_get k (d1 ++ d2)%list
    = match dict_get k d1 with
      | Some v => Some v
      | None => dict_get k d2
      end.
Proof.
  intros k d1 d2. induction d1 as [|[k0 v0] d1 IH]; simpl.
  - reflexivity.
  - destruct (String.eqb k k0); [reflexivity | exact IH].
Qed.

(** After a run of assignments a key holds what was last assigned to it,
    or what it held before. *)
Lemma dict_get_update :
  forall k ws d,
    dict_get k (dict_update ws d)
    = match last_write k ws with
      | Some v => Some v
      | None => dict_get k d
      end.
Proof.
  intros k ws. unfold dict_update, last_write.
  induction ws as [|[k0 v0] ws IH]; intros d; simpl.
  - reflexivity.
  - rewrite IH, dict_get_app, dict_get_set. simpl.
    destruct (dict_get k (rev ws)); [reflexivity|].
    destruct (String.eqb k k0); reflexivity.
Qed.

Lemma dict_get_in :
  forall k d v, dict_get k d = Some v -> In k (map fst d).
Proof.
  intros k d v. induction d as [|[k0 v0] d IH]; simpl; [discriminate|].
  destruct (String.eqb_spec k k0) as [->|]; [now left|].
  intros H. right. now apply IH.
Qed.

Lemma last_write_in :
  forall k ws v, last_write k ws = Some v -> In k (map fst ws).
Proof.
  unfold last_write. intros k ws v H. apply dict_get_in in H.
  rewrite map_rev in H. now apply in_rev.
Qed.

(** Two runs of assignments to disjoint sets of keys commute, as far as
    the bindings of the dictionary go. *)
Lemma dict_update_commute :
  forall ws1 ws2 d,
    (forall k, In k (map fst ws1) -> In k (map fst ws2) -> False) ->
    dict_equiv (dict_update ws2 (dict_update ws1 d))
               (dict_update ws1 (dict_update ws2 d)).
Proof.
  intros ws1 ws2 d Hdis k. rewrite !dict_get_update.
  destruct (last_write k ws1) as [v1|] eqn:E1;
    destruct (last_write k ws2) as [v2|] eqn:E2; try reflexivity.
  exfalso. apply (Hdis k); eapply last_write_in; eassumption.
Qed.

Lemma disjoint_spec :
  forall l1 l2,
    disjoint l1 l2 = true -> forall k, In k l1 -> In k l2 -> False.
Proof.
  unfold disjoint. intros l1 l2 H k H1 H2.
  rewrite forallb_forall in H. specialize (H k H1).
  apply negb_true_iff in H.
  assert (existsb (String.eqb k) l2 = true) as E.
  { apply existsb_exists. exists k. split; [exact H2 | apply String.eqb_refl]. }
  congruence.
Qed.

(** ** The setters of the builders *)

(** A setter of [FMInstanceCreator] that returns has made a run of
    assignments to keys of its method; the run depends on the arguments
    of the call alone. *)
Lemma InstanceSetter_writes :
  forall c,
    exists ws,
      (forall k, In k (map fst ws) ->
                 In k (InstanceSetter.keys (InstanceSetter.method_of c)))
      /\ forall self self',
           InstanceSetter.run c self = (Ok tt, self') ->
           self' = FMInstanceCreator.mk (FMInstanceCreator.cls self)
                     (FMInstanceCreator.client self)
                     (dict_update ws (FMInstanceCreator.data self)).
Proof.
  intros [v | v | a b c d e f | v | v | a b c]; simpl.
  - unfold FMInstanceCreator.with_dss_node_type.
    destruct (py_in v ["design"; "automation"; "deployer"]); simpl.
    + exists [("dssNodeType", v)]. split; [key_in|].
      intros self self' H. injection H as <-. reflexivity.
    + exists []. split; [key_in|]. discriminate.
  - exists [("cloudInstanceType", v)]. split; [key_in|].
    intros self self' H. injection H as <-. reflexivity.
  - unfold FMInstanceCreator.with_data_volume_options.
    destruct (default e (Value JNull)) as [x | m].
    + exists []. split; [key_in|]. discriminate.
    + exists [("dataVolumeType", default a JNull);
              ("dataVolumeSizeGB", default b JNull);
              ("dataVolumeSizeMaxGB", default c JNull);
              ("dataVolumeIOPS", default d JNull);
              ("dataVolumeEncryption", value m);
              ("dataVolumeEncryptionKey", default f JNull)].
      split; [key_in|].
      intros self self' H. injection H as <-. reflexivity.
  - exists [("cloudTags", v)]. split; [key_in|].
    intros self self' H. injection H as <-. reflexivity.
  - exists [("fmTags", v)]. split; [key_in|].
    intros self self' H. injection H as <-. reflexivity.
  - exists [("awsRootVolumeSizeGB", default a JNull);
            ("awsRootVolumeType", default b JNull);
            ("awsRootVolumeIOPS", default c JNull)].
    split; [key_in|].
    intros self self' H.
    unfold FMInstanceCreator.with_aws_root_volume_options in H.
    unfold bind, get in H. destruct self as [[] cl d]; simpl in H.
    + injection H as <-. reflexivity.
    + discriminate.
Qed.

(** The same for the setters of [FMInstanceSettingsTemplateCreator]. *)
Lemma TemplateSetter_writes :
  forall c,
    exists ws,
      (forall k, In k (map fst ws) ->
                 In k (TemplateSetter.keys (TemplateSetter.method_of c)))
      /\ forall self self',
           TemplateSetter.run c self = (Ok tt, self') ->
           self' = FMInstanceSettingsTemplateCreator.mk
                     (FMInstanceSettingsTemplateCreator.cls self)
                     (dict_update ws (FMInstanceSettingsTemplateCreator.data self))
                     (FMInstanceSettingsTemplateCreator.client self).
Proof.
  intros [v | v | v | v | v | v | | key a b c d | v | v | v];
    cbn [TemplateSetter.run TemplateSetter.method_of TemplateSetter.keys].
  - exists [("setupActions", v)]. split; [key_in | template_setter_returned].
  - exists [("license", v)]. split; [key_in | template_setter_returned].
  - exists [("awsKeyPairName", v)]. split; [key_in | template_setter_returned].
  - exists [("startupInstanceProfileArn", v)].
    split; [key_in | template_setter_returned].
  - exists [("runtimeInstanceProfileArn", v)].
    split; [key_in | template_setter_returned].
  - exists [("restrictAwsMetadataServerAccess", default v (JBool true))].
    split; [key_in | template_setter_returned].
  - exists [("dataikuAwsAPIAccessMode", JStr "NONE")].
    split; [key_in | template_setter_returned].
  - unfold FMInstanceSettingsTemplateCreator.with_keypair_aws_api_access_mode.
    cbv zeta.
    set (mode := default a (JStr "NONE")).
    destruct (py_in mode ["NONE"; "INLINE_ENCRYPTED"; "AWS_SECRETS_MANAGER"]);
      cbn [negb];
      [|exists []; split; [key_in | template_setter_returned]].
    destruct (py_eq_str mode "NONE").
    { exists [("dataikuAwsAPIAccessMode", JStr "KEYPAIR");
              ("dataikuAwsKeypairStorageMode", mode)].
      split; [key_in | template_setter_returned]. }
    destruct (py_eq_str mode "INLINE_ENCRYPTED").
    { destruct (is_not_None (default b JNull)); cbn [negb].
      - exists [("dataikuAwsAPIAccessMode", JStr "KEYPAIR");
                ("dataikuAwsKeypairStorageMode", mode);
                ("dataikuAwsAccessKeyId", key);
                ("dataikuAwsSecretAccessKey", default b JNull)].
        split; [key_in | template_setter_returned].
      - exists []. split; [key_in | template_setter_returned]. }
    destruct (py_eq_str mode "AWS_SECRETS_MANAGER").
    { destruct (is_not_None (default c JNull)); cbn [negb].
      - exists [("dataikuAwsAPIAccessMode", JStr "KEYPAIR");
                ("dataikuAwsKeypairStorageMode", mode);
                ("dataikuAwsAccessKeyId", key);
                ("dataikuAwsSecretAccessKeyAwsSecretName", default c JNull);
                ("awsSecretsManagerRegion", default d JNull)].
        split; [key_in | template_setter_returned].
      - exists []. split; [key_in | template_setter_returned]. }
    exists [("dataikuAwsAPIAccessMode", JStr "KEYPAIR");
            ("dataikuAwsKeypairStorageMode", mode);
            ("dataikuAwsAccessKeyId", key)].
    split; [key_in | template_setter_returned].
  - exists [("azureSshKey", v)]. split; [key_in | template_setter_returned].
  - exists [("startupManagedIdentity", v)].
    split; [key_in | template_setter_returned].
  - exists [("runtimeManagedIdentity", v)].
    split; [key_in | template_setter_returned].
Qed.

Lemma InstanceSetter_keys_disjoint :
  forall m1 m2,
    m1 <> m2 ->
    disjoint (InstanceSetter.keys m1) (InstanceSetter.keys m2) = true.
Proof.
  intros [] [] H; try reflexivity; contradiction.
Qed.

(** Of the setters of a template creator, only the two that choose the
    AWS API access mode assign to a common key. *)
Lemma TemplateSetter_keys_disjoint :
  forall m1 m2,
    m1 <> m2 ->
    (m1, m2) <> (TemplateSetter.with_default_aws_api_access_mode,
                 TemplateSetter.with_keypair_aws_api_access_mode) ->
    (m1, m2) <> (TemplateSetter.with_keypair_aws_api_access_mode,
                 TemplateSetter.with_default_aws_api_access_mode) ->
    disjoint (TemplateSetter.keys m1) (TemplateSetter.keys m2) = true.
Proof.
  intros [] [] H H1 H2; try reflexivity; contradiction.
Qed.

Section BuilderClaim.
Context {R : Runtime}.

(** [create] posts the data of the creator, once. *)
Lemma FMInstanceCreator_create_issues :
  forall self w,
    issued w (snd (FMInstanceCreator.create self w))
      [tenant_request (FMInstanceCreator.client self) "POST" "/instances"
         (Some (JDict (FMInstanceCreator.data self)))].
Proof.
  intros self w. unfold FMInstanceCreator.create. unfold_monad.
  pose proof (perform_tenant_json_issues (FMInstanceCreator.client self)
                "POST" "/instances"
                (Some (JDict (FMInstanceCreator.data self))) w) as I.
  destruct_call FMClient._perform_tenant_json; exact I.
Qed.

Lemma FMInstanceSettingsTemplateCreator_create_issues :
  forall self w,
    issued w (snd (FMInstanceSettingsTemplateCreator.create self w))
      [tenant_request (FMInstanceSettingsTemplateCreator.client self) "POST"
         "/instance-settings-templates"
         (Some (JDict (FMInstanceSettingsTemplateCreator.data self)))].
Proof.
  intros self w. unfold FMInstanceSettingsTemplateCreator.create.
  unfold_monad.
  pose proof (perform_tenant_json_issues
                (FMInstanceSettingsTemplateCreator.client self)
                "POST" "/instance-settings-templates"
                (Some (JDict (FMInstanceSettingsTemplateCreator.data self))) w)
    as I.
  destruct_call FMClient._perform_tenant_json; exact I.
Qed.

(** C5 (as amended). Two distinct setters of a creator that both return
    commute, provided they are not the two setters of a template creator
    that choose the AWS API access mode: after [with_x(a).with_y(b)] and
    after [with_y(b).with_x(a)] the creator holds the same value under
    every key, so the bodies [create()] posts are equal as dictionaries
    (the order in which their keys were inserted may differ).  Every
    pair of distinct setters of an instance creator is such a pair. *)
Theorem setters_on_distinct_keys_commute :
  (forall (self : FMInstanceCreator.t) x y sxy syx,
     InstanceSetter.method_of x <> InstanceSetter.method_of y ->
     (InstanceSetter.run x ;; InstanceSetter.run y) self = (Ok tt, sxy) ->
     (InstanceSetter.run y ;; InstanceSetter.run x) self = (Ok tt, syx) ->
     dict_equiv (FMInstanceCreator.data sxy) (FMInstanceCreator.data syx)
     /\ FMInstanceCreator.cls sxy = FMInstanceCreator.cls syx
     /\ FMInstanceCreator.client sxy = FMInstanceCreator.client syx
     /\ forall w,
          issued w (snd (FMInstanceCreator.create sxy w))
            [tenant_request (FMInstanceCreator.client self) "POST" "/instances"
               (Some (JDict (FMInstanceCreator.data sxy)))]
          /\ issued w (snd (FMInstanceCreator.create syx w))
               [tenant_request (FMInstanceCreator.client self) "POST"
                  "/instances" (Some (JDict (FMInstanceCreator.data syx)))])
  /\ (forall (self : FMInstanceSettingsTemplateCreator.t) x y sxy syx,
        TemplateSetter.method_of x <> TemplateSetter.method_of y ->
        (TemplateSetter.method_of x, TemplateSetter.method_of y)
        <> (TemplateSetter.with_default_aws_api_access_mode,
            TemplateSetter.with_keypair_aws_api_access_mode) ->
        (TemplateSetter.method_of x, TemplateSetter.method_of y)
        <> (TemplateSetter.with_keypair_aws_api_access_mode,
            TemplateSetter.with_default_aws_api_access_mode) ->
        (TemplateSetter.run x ;; TemplateSetter.run y) self = (Ok tt, sxy) ->
        (TemplateSetter.run y ;; TemplateSetter.run x) self = (Ok tt, syx) ->
        dict_equiv (FMInstanceSettingsTemplateCreator.data sxy)
                   (FMInstanceSettingsTemplateCreator.data syx)
        /\ FMInstanceSettingsTemplateCreator.cls sxy
           = FMInstanceSettingsTemplateCreator.cls syx
        /\ FMInstanceSettingsTemplateCreator.client sxy
           = FMInstanceSettingsTemplateCreator.client syx
        /\ forall w,
             issued w (snd (FMInstanceSettingsTemplateCreator.create sxy w))
               [tenant_request (FMInstanceSettingsTemplateCreator.client self)
                  "POST" "/instance-settings-templates"
                  (Some (JDict (FMInstanceSettingsTemplateCreator.data sxy)))]
             /\ issued w (snd (FMInstanceSettingsTemplateCreator.create syx w))
                  [tenant_request
                     (FMInstanceSettingsTemplateCreator.client self)
                     "POST" "/instance-settings-templates"
                     (Some (JDict (FMInstanceSettingsTemplateCreator.data syx)))]).
Proof.
  split.
  - intros self x y sxy syx Hm Hxy Hyx. unfold bind in Hxy, Hyx.
    destruct (InstanceSetter.run x self) as [[[]|ex] sx] eqn:Ex; [|discriminate].
    destruct (InstanceSetter.run y self) as [[[]|ey] sy] eqn:Ey; [|discriminate].
    destruct (InstanceSetter_writes x) as [wx [Kx Wx]].
    destruct (InstanceSetter_writes y) as [wy [Ky Wy]].
    rewrite (Wy _ _ Hxy), (Wx _ _ Hyx), (Wx _ _ Ex), (Wy _ _ Ey).
    cbn [FMInstanceCreator.data FMInstanceCreator.cls FMInstanceCreator.client].
    split; [|split; [reflexivity|split; [reflexivity|]]].
    + apply dict_update_commute. intros k H1 H2.
      apply (disjoint_spec _ _ (InstanceSetter_keys_disjoint _ _ Hm) k);
        auto.
    + intros w. split; apply FMInstanceCreator_create_issues.
  - intros self x y sxy syx Hm H1 H2 Hxy Hyx. unfold bind in Hxy, Hyx.
    destruct (TemplateSetter.run x self) as [[[]|ex] sx] eqn:Ex; [|discriminate].
    destruct (TemplateSetter.run y self) as [[[]|ey] sy] eqn:Ey; [|discriminate].
    destruct (TemplateSetter_writes x) as [wx [Kx Wx]].
    destruct (TemplateSetter_writes y) as [wy [Ky Wy]].
    rewrite (Wy _ _ Hxy), (Wx _ _ Hyx), (Wx _ _ Ex), (Wy _ _ Ey).
    cbn [FMInstanceSettingsTemplateCreator.data
         FMInstanceSettingsTemplateCreator.cls
         FMInstanceSettingsTemplateCreator.client].
    split; [|split; [reflexivity|split; [reflexivity|]]].
    + apply dict_update_commute. intros k I1 I2.
      apply (disjoint_spec _ _ (TemplateSetter_keys_disjoint _ _ Hm H1 H2) k);
        auto.
    + intros w. split; apply FMInstanceSettingsTemplateCreator_create_issues.
Qed.

End BuilderClaim.

(** C5, on examples: the machine type and the tags of an instance, in
    both orders; the license and the key pair of a template, in both
    orders. *)
Lemma setters_commute_examples :
  let instance_creator :=
    FMInstanceCreator.__init__ AWS example_client (JStr "dss") (JStr "ist-1")
      (JStr "vn-1") (JStr "dss-9.0.3-default") in
  let x := InstanceSetter.Cloud_instance_type (JStr "m5.xlarge") in
  let y := InstanceSetter.Fm_tags (JList [JStr "team-a"]) in
  let template_creator :=
    FMInstanceSettingsTemplateCreator.__init__ AWS example_client (JStr "t") in
  let x' := TemplateSetter.License (JStr "license") in
  let y' :=
    TemplateSetter.Keypair_aws_api_access_mode (JStr "AKIA")
      (Some (JStr "INLINE_ENCRYPTED")) (Some (JStr "secret")) None None in
  dict_equiv
    (FMInstanceCreator.data
       (snd ((InstanceSetter.run x ;; InstanceSetter.run y) instance_creator)))
    (FMInstanceCreator.data
       (snd ((InstanceSetter.run y ;; InstanceSetter.run x) instance_creator)))
  /\ dict_equiv
       (FMInstanceSettingsTemplateCreator.data
          (snd ((TemplateSetter.run x' ;; TemplateSetter.run y')
                  template_creator)))
       (FMInstanceSettingsTemplateCreator.data
          (snd ((TemplateSetter.run y' ;; TemplateSetter.run x')
                  template_creator))).
Proof.
  intros instance_creator x y template_creator x' y'.
  destruct (@setters_on_distinct_keys_commute (example_runtime answer_ok))
    as [HI HT].
  split.
  - apply (HI instance_creator x y
             (snd ((InstanceSetter.run x ;; InstanceSetter.run y)
                     instance_creator))
             (snd ((InstanceSetter.run y ;; InstanceSetter.run x)
                     instance_creator))).
    + discriminate.
    + reflexivity.
    + reflexivity.
  - apply (HT template_creator x' y'
             (snd ((TemplateSetter.run x' ;; TemplateSetter.run y')
                     template_creator))
             (snd ((TemplateSetter.run y' ;; TemplateSetter.run x')
                     template_creator))).
    + discriminate.
    + discriminate.
    + discriminate.
    + reflexivity.
    + reflexivity.
Defined.

(** C5 as stated fails: [with_default_aws_api_access_mode] and
    [with_keypair_aws_api_access_mode] are distinct setters of the same
    creator, neither raises, and both assign [dataikuAwsAPIAccessMode]:
    the one called last decides the mode that is posted. *)
Lemma api_access_mode_setters_do_not_commute :
  let self :=
    FMInstanceSettingsTemplateCreator.__init__ AWS example_client (JStr "t") in
  let x := TemplateSetter.Default_aws_api_access_mode in
  let y :=
    TemplateSetter.Keypair_aws_api_access_mode (JStr "AKIA") None None None
      None in
  let xy := (TemplateSetter.run x ;; TemplateSetter.run y) self in
  let yx := (TemplateSetter.run y ;; TemplateSetter.run x) self in
  TemplateSetter.method_of x <> TemplateSetter.method_of y
  /\ fst xy = Ok tt
  /\ fst yx = Ok tt
  /\ dict_get "dataikuAwsAPIAccessMode"
       (FMInstanceSettingsTemplateCreator.data (snd xy))
     = Some (JStr "KEYPAIR")
  /\ dict_get "dataikuAwsAPIAccessMode"
       (FMInstanceSettingsTemplateCreator.data (snd yx))
     = Some (JStr "NONE")
  /\ ~ dict_equiv (FMInstanceSettingsTemplateCreator.data (snd xy))
                  (FMInstanceSettingsTemplateCreator.data (snd yx)).
Proof.
  intros self x y xy yx.
  split; [discriminate|].
  repeat (split; [reflexivity|]).
  intros H. specialize (H "dataikuAwsAPIAccessMode"). discriminate H.
Qed.

(** Two setters that commute still leave their keys in the order of the
    calls: the two bodies hold the same bindings in different orders. *)
Lemma setter_order_shows_in_key_order :
  let self :=
    FMInstanceSettingsTemplateCreator.__init__ Azure example_client (JStr "t") in
  let x := TemplateSetter.License (JStr "license") in
  let y := TemplateSetter.Ssh_key (JStr "ssh-rsa AAAA") in
  map fst (FMInstanceSettingsTemplateCreator.data
             (snd ((TemplateSetter.run x ;; TemplateSetter.run y) self)))
  = ["label"; "license"; "azureSshKey"]
  /\ map fst (FMInstanceSettingsTemplateCreator.data
                (snd ((TemplateSetter.run y ;; TemplateSetter.run x) self)))
     = ["label"; "azureSshKey"; "license"].
Proof.
  split; reflexivity.
Qed.

(** * Further properties of the code *)

(** ** The transport shim, beyond the error message *)

Lemma raise_for_status_range :
  forall r,
    raise_for_status r = true <-> (400 <= status_code r < 600)%Z.
Proof.
  intros r. unfold raise_for_status. rewrite andb_true_iff.
  rewrite Z.leb_le, Z.ltb_lt. tauto.
Qed.

Section TransportOutcomes.
Context {R : Runtime}.

(** X1. An error answer (4xx or 5xx) whose body decodes to JSON that is
    not an object (a list, a string, a number, [null]) is not turned into
    a [DataikuException]: [_perform_http], and with it [_perform_json]
    and [_perform_empty], end with the [AttributeError] of the missing
    [get] method, after the one request. *)
Theorem error_body_not_an_object_raises_AttributeError :
  forall self method path params body files raw_body w http_res srv v,
    session_request (FMClient._session self) (remote w)
      (request_of self method path params body false files raw_body)
    = (Answered http_res, srv) ->
    (400 <= status_code http_res < 600)%Z ->
    json_body http_res = Some v ->
    (forall d, v <> JDict d) ->
    let w' :=
      mkWorld srv
        (sent w ++ [request_of self method path params body false files
                      raw_body])%list in
    FMClient._perform_http self method path params body false files raw_body w
    = (Raise (AttributeError "get"), w')
    /\ FMClient._perform_json self method path params body files raw_body w
       = (Raise (AttributeError "get"), w')
    /\ FMClient._perform_empty self method path params body files raw_body w
       = (Raise (AttributeError "get"), w').
Proof.
  intros self method path params body files raw_body w http_res srv v
         Hreq Hstatus Hv Hnot w'.
  assert (E : FMClient._perform_http self method path params body false files
                raw_body w = (Raise (AttributeError "get"), w')).
  { rewrite (perform_http_answered _ _ _ _ _ _ _ _ _ _ _ Hreq). cbv zeta.
    apply raise_for_status_range in Hstatus. rewrite Hstatus, Hv.
    destruct v; try reflexivity. exfalso. eapply Hnot. reflexivity. }
  split; [exact E|].
  unfold FMClient._perform_json, FMClient._perform_empty, bind.
  rewrite E. split; reflexivity.
Qed.

(** X2. On an answer that is no error, [_perform_empty] returns without
    looking at the body, and [_perform_json] returns the decoded body; if
    the body does not decode (an empty 204 answer, say) [_perform_json]
    raises the decoding error itself, not a [DataikuException].  Either
    way the one request has been issued. *)
Theorem perform_json_decodes_and_perform_empty_ignores_the_body :
  forall self method path params body files raw_body w http_res srv,
    session_request (FMClient._session self) (remote w)
      (request_of self method path params body false files raw_body)
    = (Answered http_res, srv) ->
    ~ (400 <= status_code http_res < 600)%Z ->
    let w' :=
      mkWorld srv
        (sent w ++ [request_of self method path params body false files
                      raw_body])%list in
    FMClient._perform_empty self method path params body files raw_body w
    = (Ok tt, w')
    /\ FMClient._perform_json self method path params body files raw_body w
       = (match json_body http_res with
          | Some v => Ok v
          | None => Raise JSONDecodeError
          end, w').
Proof.
  intros self method path params body files raw_body w http_res srv
         Hreq Hstatus w'.
  assert (Hs : raise_for_status http_res = false).
  { destruct (raise_for_status http_res) eqn:E; [|reflexivity].
    apply raise_for_status_range in E. contradiction. }
  unfold FMClient._perform_json, FMClient._perform_empty, bind.
  rewrite (perform_http_answered _ _ _ _ _ _ _ _ _ _ _ Hreq). cbv zeta.
  rewrite Hs. split; [reflexivity|].
  destruct (json_body http_res); reflexivity.
Qed.

(** X3. The converse of the error translation.  [_perform_http] raises a
    [DataikuException] only when the server answered with a 4xx or 5xx
    status, and then the message is the one built from the body; it
    returns a response only when the server answered with that very
    response and its status is no error. *)
Theorem perform_http_outcomes :
  forall self method path params body stream files raw_body w,
    let rq := request_of self method path params body stream files raw_body in
    let run :=
      FMClient._perform_http self method path params body stream files
        raw_body w in
    (forall msg,
       fst run = Raise (DataikuException msg) ->
       exists http_res srv,
         session_request (FMClient._session self) (remote w) rq
         = (Answered http_res, srv)
         /\ (400 <= status_code http_res < 600)%Z
         /\ (json_body http_res = None
             /\ msg = "Unknown error: " ++ text http_res
             \/ exists d,
                 json_body http_res = Some (JDict d)
                 /\ msg = py_str (field d "errorType" "Unknown error") ++ ": "
                            ++ py_str (field d "message" "No message")))
    /\ (forall http_res,
          fst run = Ok http_res ->
          exists srv,
            session_request (FMClient._session self) (remote w) rq
            = (Answered http_res, srv)
            /\ ~ (400 <= status_code http_res < 600)%Z
            /\ snd run = mkWorld srv (sent w ++ [rq])%list).
Proof.
  intros self method path params body stream files raw_body w rq run.
  subst run.
  destruct (session_request (FMClient._session self) (remote w) rq)
    as [[http_res|] srv] eqn:E; subst rq.
  - rewrite (perform_http_answered _ _ _ _ _ _ _ _ _ _ _ E). cbv zeta.
    destruct (raise_for_status http_res) eqn:Hs.
    + apply raise_for_status_range in Hs. split.
      * intros msg H. exists http_res, srv.
        split; [reflexivity|]. split; [exact Hs|].
        destruct (json_body http_res) as [[]|]; cbn [fst] in H;
          try discriminate H; injection H as <-.
        -- right. eexists. split; reflexivity.
        -- left. split; reflexivity.
      * intros r H. destruct (json_body http_res) as [[]|]; discriminate H.
    + split.
      * intros msg H. discriminate H.
      * intros r H. cbn [fst] in H. injection H as <-. exists srv.
        split; [reflexivity|]. split; [|reflexivity].
        intros Hr. apply raise_for_status_range in Hr. congruence.
  - rewrite (perform_http_failed _ _ _ _ _ _ _ _ _ _ E).
    split; intros ? H; discriminate H.
Qed.

End TransportOutcomes.

(** X1, on an example: status 404 with the body [[]]. *)
Lemma error_body_not_an_object_example :
  let r := mkResponse 404 "[]" (Some (JList [])) in
  fst (@FMClient._perform_json (example_runtime (answer_with r))
         example_client "GET" "/tenants/main/instances" None None None None
         (fresh_world _))
  = Raise (AttributeError "get").
Proof.
  intros r.
  destruct (@error_body_not_an_object_raises_AttributeError
              (example_runtime (answer_with r)) example_client "GET"
              "/tenants/main/instances" None None None None (fresh_world _)
              r 1%nat (JList []) eq_refl ltac:(simpl; lia) eq_refl
              ltac:(intros d; discriminate))
    as [_ [H _]].
  rewrite H. reflexivity.
Defined.

(** X2, on an example: status 204 with no body. *)
Lemma perform_json_no_content_example :
  fst (@FMClient._perform_empty (example_runtime (answer_with no_content))
         example_client "DELETE" "/tenants/main/x" None None None None
         (fresh_world _))
  = Ok tt
  /\ fst (@FMClient._perform_json (example_runtime (answer_with no_content))
            example_client "DELETE" "/tenants/main/x" None None None None
            (fresh_world _))
     = Raise JSONDecodeError.
Proof.
  destruct (@perform_json_decodes_and_perform_empty_ignores_the_body
              (example_runtime (answer_with no_content)) example_client
              "DELETE" "/tenants/main/x" None None None None (fresh_world _)
              no_content 1%nat eq_refl ltac:(simpl; lia))
    as [He Hj].
  rewrite He, Hj. split; reflexivity.
Defined.

(** X3, on an example: the [DataikuException] of the 404 answer comes
    from a status between 400 and 599. *)
Lemma perform_http_outcomes_example :
  exists http_res srv,
    @session_request (example_runtime (answer_with not_found))
      (FMClient._session example_client) 0%nat
      (@request_of (example_runtime (answer_with not_found)) example_client
         "GET" "/x" None None false None None)
    = (Answered http_res, srv)
    /\ (400 <= status_code http_res < 600)%Z.
Proof.
  destruct (@perform_http_outcomes (example_runtime (answer_with not_found))
              example_client "GET" "/x" None None false None None
              (fresh_world _)) as [H _].
  destruct (H "NotFound: no such instance" eq_refl)
    as [http_res [srv [Hreq [Hs _]]]].
  exists http_res, srv. split; [exact Hreq | exact Hs].
Defined.

(** ** The resources of the client *)

(** A comprehension returns when every element is wrapped, and then
    element by element. *)
Lemma map_res_ok :
  forall A B (f : A -> res B) l hs,
    map_res f l = Ok hs <-> Forall2 (fun x h => f x = Ok h) l hs.
Proof.
  intros A B f l. induction l as [|x l IH]; intros hs; simpl.
  - split.
    + intros H. injection H as <-. constructor.
    + intros H. inversion H. reflexivity.
  - split.
    + intros H. destruct (f x) as [y|e] eqn:E; [|discriminate].
      destruct (map_res f l) as [ys|e] eqn:E'; [|discriminate].
      injection H as <-. constructor; [exact E | now apply IH].
    + intros H. inversion H as [|x' h l' hs' Hx Hl]; subst.
      rewrite Hx. apply IH in Hl. rewrite Hl. reflexivity.
Qed.

Section ResourceProperties.
Context {R : Runtime}.

Lemma perform_tenant_json_answered :
  forall c method path body w http_res srv,
    session_request (FMClient._session c) (remote w)
      (tenant_request c method path body)
    = (Answered http_res, srv) ->
    ~ (400 <= status_code http_res < 600)%Z ->
    FMClient._perform_tenant_json c method path None body None None w
    = (match json_body http_res with
       | Some v => Ok v
       | None => Raise JSONDecodeError
       end,
       mkWorld srv (sent w ++ [tenant_request c method path body])%list).
Proof.
  intros c method path body w http_res srv Hreq Hstatus.
  assert (Hs : raise_for_status http_res = false).
  { destruct (raise_for_status http_res) eqn:E; [|reflexivity].
    apply raise_for_status_range in E. contradiction. }
  unfold FMClient._perform_tenant_json, FMClient._perform_json, bind.
  unfold tenant_request in Hreq.
  rewrite (perform_http_answered _ _ _ _ _ _ _ _ _ _ _ Hreq). cbv zeta.
  rewrite Hs. destruct (json_body http_res); reflexivity.
Qed.

(** X4. [get_instance] and [get_instance_template] wrap what the server
    answers: the handle holds the decoded object as its snapshot and
    takes its id from the [id] key of that object, not from the id that
    was asked for.  An object without [id] ends the call with [KeyError],
    an answer that is no object with [TypeError], in both cases after the
    one GET. *)
Theorem get_wraps_the_answer :
  forall self asked w http_res srv v,
    ~ (400 <= status_code http_res < 600)%Z ->
    json_body http_res = Some v ->
    let wrapped (T : Type) (mk : json -> json -> T) : res T :=
      match v with
      | JDict d =>
          match dict_get "id" d with
          | Some i => Ok (mk i v)
          | None => Raise (KeyError "id")
          end
      | _ => Raise (TypeError "")
      end in
    (let rq := tenant_request self "GET" ("/instances/" ++ py_str asked) None in
     session_request (FMClient._session self) (remote w) rq
     = (Answered http_res, srv) ->
     get_instance self asked w
     = (wrapped _
          (fun i x => FMInstance.mk FMInstance.Base (FMClient_object self) x i),
        mkWorld srv (sent w ++ [rq])%list))
    /\ (let rq :=
          tenant_request self "GET"
            ("/instance-settings-templates/" ++ py_str asked) None in
        session_request (FMClient._session self) (remote w) rq
        = (Answered http_res, srv) ->
        get_instance_template self asked w
        = (wrapped _
             (fun i x =>
                FMInstanceSettingsTemplate.mk (FMClient_object self) i x),
           mkWorld srv (sent w ++ [rq])%list)).
Proof.
  intros self asked w http_res srv v Hstatus Hv wrapped. subst wrapped.
  split; intros rq Hreq; subst rq.
  - unfold get_instance, bind.
    rewrite (perform_tenant_json_answered _ _ _ _ _ _ _ Hreq Hstatus), Hv.
    unfold of_res, FMInstance.__init__, py_getitem.
    destruct v as [| | | | |d]; try reflexivity.
    destruct (dict_get "id" d); reflexivity.
  - unfold get_instance_template, bind.
    rewrite (perform_tenant_json_answered _ _ _ _ _ _ _ Hreq Hstatus), Hv.
    unfold of_res, FMInstanceSettingsTemplate.__init__, py_getitem.
    destruct v as [| | | | |d]; try reflexivity.
    destruct (dict_get "id" d); reflexivity.
Qed.

(** X5. [list_instance_templates] wraps the list the server answers
    element by element: it returns exactly when every element is an
    object with an [id] key, and then the list returned has the length of
    the answer and its i-th handle holds the client, the i-th object as
    snapshot and that object's id.  (This is what [list_instances] does
    not do.) *)
Theorem list_instance_templates_wraps_each_object :
  forall self w http_res srv l,
    session_request (FMClient._session self) (remote w)
      (tenant_request self "GET" "/instance-settings-templates" None)
    = (Answered http_res, srv) ->
    ~ (400 <= status_code http_res < 600)%Z ->
    json_body http_res = Some (JList l) ->
    let run := list_instance_templates self w in
    (forall hs,
       fst run = Ok hs <->
       Forall2
         (fun x h =>
            exists i,
              py_getitem x "id" = Ok i
              /\ h = FMInstanceSettingsTemplate.mk (FMClient_object self) i x)
         l hs)
    /\ (forall hs, fst run = Ok hs -> length hs = length l)
    /\ issued w (snd run)
         [tenant_request self "GET" "/instance-settings-templates" None].
Proof.
  intros self w http_res srv l Hreq Hstatus Hl run. subst run.
  unfold list_instance_templates, bind.
  rewrite (perform_tenant_json_answered _ _ _ _ _ _ _ Hreq Hstatus), Hl.
  unfold of_res, py_iter. cbn [fst snd]. clear Hl Hreq.
  assert (Hiff : forall hs,
             map_res (FMInstanceSettingsTemplate.__init__ (FMClient_object self)) l
             = Ok hs <->
             Forall2
               (fun x h =>
                  exists i,
                    py_getitem x "id" = Ok i
                    /\ h = FMInstanceSettingsTemplate.mk (FMClient_object self) i x)
               l hs).
  { intros hs. rewrite map_res_ok. split; intros H.
    - induction H as [|x h l' hs' Hx _ IH]; [constructor|].
      constructor; [|exact IH].
      unfold FMInstanceSettingsTemplate.__init__ in Hx.
      destruct (py_getitem x "id") as [i|]; [|discriminate].
      injection Hx as <-. exists i. split; reflexivity.
    - induction H as [|x h l' hs' [i [Hi ->]] _ IH]; [constructor|].
      constructor; [|exact IH].
      unfold FMInstanceSettingsTemplate.__init__. rewrite Hi. reflexivity. }
  split; [exact Hiff|]. split.
  - intros hs H. apply Hiff in H. symmetry. eapply Forall2_length. exact H.
  - reflexivity.
Qed.

End ResourceProperties.

(** X4, on an example: the server answers the object of the instance
    [i-1] to a request for [i-7]; the handle has the id [i-1]. *)
Lemma get_wraps_the_answer_example :
  FMInstance.id
    (match fst (@get_instance (example_runtime answer_ok) example_client
                  (JStr "i-7") (fresh_world answer_ok)) with
     | Ok h => h
     | Raise _ => example_instance
     end)
  = JStr "i-1"
  /\ map req_url
       (sent (snd (@get_instance (example_runtime answer_ok) example_client
                     (JStr "i-7") (fresh_world answer_ok))))
     = ["https://fm.example.com/api/public/tenants/main/instances/i-7"].
Proof.
  destruct (@get_wraps_the_answer (example_runtime answer_ok) example_client
              (JStr "i-7") (fresh_world answer_ok)
              (mkResponse 200 ""
                 (Some (JDict [("id", JStr "i-1"); ("rev", JInt 0)])))
              1%nat (JDict [("id", JStr "i-1"); ("rev", JInt 0)])
              ltac:(simpl; lia) eq_refl) as [H _].
  rewrite (H eq_refl). split; reflexivity.
Defined.

(** X5, on an example: a list of two templates. *)
Lemma list_instance_templates_example :
  let listing :=
    answer_with
      (mkResponse 200 ""
         (Some (JList [JDict [("id", JStr "a")]; JDict [("id", JStr "b")]]))) in
  exists hs,
    fst (@list_instance_templates (example_runtime listing) example_client
           (fresh_world listing)) = Ok hs
    /\ length hs = 2%nat.
Proof.
  intros listing.
  destruct (@list_instance_templates_wraps_each_object
              (example_runtime listing) example_client (fresh_world listing)
              (mkResponse 200 ""
                 (Some (JList [JDict [("id", JStr "a")]; JDict [("id", JStr "b")]])))
              1%nat [JDict [("id", JStr "a")]; JDict [("id", JStr "b")]]
              eq_refl ltac:(simpl; lia) eq_refl) as [_ [Hlen _]].
  eexists. split; [reflexivity|]. apply Hlen. reflexivity.
Defined.

(** ** The builders, one call at a time *)

(** A setter assigns to the keys of its method and to no other; this
    holds when it raises as well. *)
Lemma InstanceSetter_frame :
  forall c self k,
    ~ In k (InstanceSetter.keys (InstanceSetter.method_of c)) ->
    dict_get k (FMInstanceCreator.data (snd (InstanceSetter.run c self)))
    = dict_get k (FMInstanceCreator.data self).
Proof.
  intros c [cl client d] k H.
  destruct c, cl; cbn [InstanceSetter.run InstanceSetter.method_of
                       InstanceSetter.keys] in *;
    open_setter; rewrite ?dict_get_set; other_key k H; reflexivity.
Qed.

Lemma TemplateSetter_frame :
  forall c self k,
    ~ In k (TemplateSetter.keys (TemplateSetter.method_of c)) ->
    dict_get k (FMInstanceSettingsTemplateCreator.data
                  (snd (TemplateSetter.run c self)))
    = dict_get k (FMInstanceSettingsTemplateCreator.data self).
Proof.
  intros c [cl d client] k H.
  destruct c, cl; cbn [TemplateSetter.run TemplateSetter.method_of
                       TemplateSetter.keys] in *;
    open_setter; rewrite ?dict_get_set; other_key k H; reflexivity.
Qed.

(** A setter removes no key. *)
Lemma InstanceSetter_keeps_keys :
  forall c self k,
    dict_get k (FMInstanceCreator.data self) <> None ->
    dict_get k (FMInstanceCreator.data (snd (InstanceSetter.run c self)))
    <> None.
Proof.
  intros c [cl client d] k H.
  destruct c, cl; cbn [InstanceSetter.run] in *; open_setter;
    rewrite ?dict_get_set;
    repeat match goal with
           | |- context [String.eqb k ?l] => destruct (String.eqb k l)
           end;
    try discriminate; exact H.
Qed.

Lemma TemplateSetter_keeps_keys :
  forall c self k,
    dict_get k (FMInstanceSettingsTemplateCreator.data self) <> None ->
    dict_get k (FMInstanceSettingsTemplateCreator.data
                  (snd (TemplateSetter.run c self)))
    <> None.
Proof.
  intros c [cl d client] k H.
  destruct c, cl; cbn [TemplateSetter.run] in *; open_setter;
    rewrite ?dict_get_set;
    repeat match goal with
           | |- context [String.eqb k ?l] => destruct (String.eqb k l)
           end;
    try discriminate; exact H.
Qed.

(** A setter changes neither the class nor the client of the creator. *)
Lemma InstanceSetter_same_creator :
  forall c self,
    FMInstanceCreator.cls (snd (InstanceSetter.run c self))
    = FMInstanceCreator.cls self
    /\ FMInstanceCreator.client (snd (InstanceSetter.run c self))
       = FMInstanceCreator.client self.
Proof.
  intros c [cl client d].
  destruct c, cl; cbn [InstanceSetter.run] in *; open_setter;
    split; reflexivity.
Qed.

Lemma TemplateSetter_same_creator :
  forall c self,
    FMInstanceSettingsTemplateCreator.cls (snd (TemplateSetter.run c self))
    = FMInstanceSettingsTemplateCreator.cls self
    /\ FMInstanceSettingsTemplateCreator.client (snd (TemplateSetter.run c self))
       = FMInstanceSettingsTemplateCreator.client self.
Proof.
  intros c [cl d client].
  destruct c, cl; cbn [TemplateSetter.run] in *; open_setter;
    split; reflexivity.
Qed.

Lemma py_in_node_type :
  forall v,
    py_in v ["design"; "automation"; "deployer"] = true <-> node_type_ok v.
Proof.
  intros v. unfold node_type_ok. split.
  - destruct v; simpl; try discriminate.
    destruct (String.eqb_spec s "design") as [->|]; [now left|].
    destruct (String.eqb_spec s "automation") as [->|]; [now right; left|].
    destruct (String.eqb_spec s "deployer") as [->|]; [now right; right|].
    discriminate.
  - intros [-> | [-> | ->]]; reflexivity.
Qed.

(** X6. The setters of an instance creator fail before they assign
    anything: a call that raises leaves the creator exactly as it was.
    [with_dss_node_type] returns exactly for the three node types (and
    raises [ValueError] otherwise), [with_aws_root_volume_options]
    exactly on the creator of the AWS class, and [with_cloud_instance_type],
    [with_cloud_tags] and [with_fm_tags] always return. *)
Theorem instance_setters_fail_before_any_assignment :
  (forall c self e s',
     InstanceSetter.run c self = (Raise e, s') -> s' = self)
  /\ (forall v self,
        (fst (FMInstanceCreator.with_dss_node_type v self) = Ok tt
         <-> node_type_ok v)
        /\ (~ node_type_ok v ->
            is_ValueError (fst (FMInstanceCreator.with_dss_node_type v self))
            = true))
  /\ (forall a b c self,
        fst (FMInstanceCreator.with_aws_root_volume_options a b c self) = Ok tt
        <-> FMInstanceCreator.cls self = AWS)
  /\ (forall v self,
        fst (FMInstanceCreator.with_cloud_instance_type v self) = Ok tt
        /\ fst (FMInstanceCreator.with_cloud_tags v self) = Ok tt
        /\ fst (FMInstanceCreator.with_fm_tags v self) = Ok tt).
Proof.
  split; [|split; [|split]].
  - intros c [cl client d] e s' H. revert H.
    destruct c, cl; cbn [InstanceSetter.run]; open_setter;
      intros H; inversion H; reflexivity.
  - intros v self. unfold FMInstanceCreator.with_dss_node_type.
    pose proof (py_in_node_type v) as P.
    destruct (py_in v ["design"; "automation"; "deployer"]); cbn [negb].
    + split; [|intros N; exfalso; apply N; apply P; reflexivity].
      split; [intros _; apply P|]; reflexivity.
    + split; [|reflexivity].
      split; [discriminate|]. intros N. apply P in N. discriminate.
  - intros a b c [[] client d];
      unfold FMInstanceCreator.with_aws_root_volume_options, bind, get;
      cbn; split; try reflexivity; discriminate.
  - intros v self. repeat split.
Qed.

(** X6, on an example: an unknown node type is refused and the creator
    keeps the type it had. *)
Lemma instance_setters_fail_example :
  let self :=
    FMInstanceCreator.__init__ Azure example_client (JStr "dss") (JStr "ist-1")
      (JStr "vn-1") (JStr "dss-9.0.3-default") in
  snd (InstanceSetter.run (InstanceSetter.Dss_node_type (JStr "api")) self)
  = self
  /\ snd (InstanceSetter.run
            (InstanceSetter.Aws_root_volume_options (Some (JInt 50)) None None)
            self)
     = self.
Proof.
  intros self.
  destruct instance_setters_fail_before_any_assignment as [H _].
  split.
  - apply (H (InstanceSetter.Dss_node_type (JStr "api")) self
             (ValueError ("Only " ++ dq ++ "design" ++ dq ++ ", " ++ dq
                            ++ "automation" ++ dq ++ " or " ++ dq ++ "deployer"
                            ++ dq ++ " dss_node_type are supported"))).
    reflexivity.
  - apply (H (InstanceSetter.Aws_root_volume_options (Some (JInt 50)) None None)
             self (AttributeError "with_aws_root_volume_options")).
    reflexivity.
Defined.

(** ** The builders, over a whole chain *)

Lemma InstanceSetter_node_type :
  forall c self,
    (exists n,
       dict_get "dssNodeType" (FMInstanceCreator.data self) = Some n
       /\ node_type_ok n) ->
    exists n,
      dict_get "dssNodeType"
        (FMInstanceCreator.data (snd (InstanceSetter.run c self)))
      = Some n
      /\ node_type_ok n.
Proof.
  intros c self [n [Hn Hok]].
  destruct c as [v| | | | |];
    try (rewrite InstanceSetter_frame;
         [exists n; split; assumption
         |cbn; intros H; repeat destruct H as [H|H]; discriminate || exact H]).
  destruct self as [cl client d].
  cbn [InstanceSetter.run]. unfold FMInstanceCreator.with_dss_node_type.
  destruct (py_in v ["design"; "automation"; "deployer"]) eqn:E; cbn.
  - exists v. split; [|apply py_in_node_type; exact E].
    rewrite dict_get_set. reflexivity.
  - exists n. split; assumption.
Qed.

(** What a creator of an instance keeps through every setter. *)
Lemma instance_chain_invariant :
  forall calls self (P : FMInstanceCreator.t -> Prop),
    (forall c s, P s -> P (snd (InstanceSetter.run c s))) ->
    P self -> P (snd (instance_chain calls self)).
Proof.
  induction calls as [|c calls IH]; intros self P Hstep H0; simpl.
  - exact H0.
  - unfold bind. pose proof (Hstep c self H0) as H1.
    destruct (InstanceSetter.run c self) as [[[]|e] s1]; cbn [snd] in *.
    + apply IH; assumption.
    + exact H1.
Qed.

Lemma template_chain_invariant :
  forall calls self (P : FMInstanceSettingsTemplateCreator.t -> Prop),
    (forall c s, P s -> P (snd (TemplateSetter.run c s))) ->
    P self -> P (snd (template_chain calls self)).
Proof.
  induction calls as [|c calls IH]; intros self P Hstep H0; simpl.
  - exact H0.
  - unfold bind. pose proof (Hstep c self H0) as H1.
    destruct (TemplateSetter.run c self) as [[[]|e] s1]; cbn [snd] in *.
    + apply IH; assumption.
    + exact H1.
Qed.

Section ChainClaims.
Context {R : Runtime}.

(** X7. Whatever setters are chained on a creator of an instance, in
    whatever order and whether the chain ends by an exception or not, the
    creator still holds the label, the template id, the network id and
    the image id it was made with, and a node type that is one of
    [design], [automation] and [deployer]; its class and client are
    unchanged.  This is the body [create()] then posts. *)
Theorem instance_chain_keeps_what_the_creator_was_made_with :
  forall cl client label template_id network_id image_id calls,
    let made :=
      FMInstanceCreator.__init__ cl client label template_id network_id
        image_id in
    let final := snd (instance_chain calls made) in
    let body := FMInstanceCreator.data final in
    dict_get "label" body = Some label
    /\ dict_get "instanceSettingsTemplateId" body = Some template_id
    /\ dict_get "virtualNetworkId" body = Some network_id
    /\ dict_get "imageId" body = Some image_id
    /\ (exists n, dict_get "dssNodeType" body = Some n /\ node_type_ok n)
    /\ FMInstanceCreator.cls final = cl
    /\ FMInstanceCreator.client final = client
    /\ forall w,
         issued w (snd (FMInstanceCreator.create final w))
           [tenant_request client "POST" "/instances" (Some (JDict body))].
Proof.
  intros cl client label template_id network_id image_id calls made final body.
  assert (Inv :
            (fun s =>
               dict_get "label" (FMInstanceCreator.data s) = Some label
               /\ dict_get "instanceSettingsTemplateId" (FMInstanceCreator.data s)
                  = Some template_id
               /\ dict_get "virtualNetworkId" (FMInstanceCreator.data s)
                  = Some network_id
               /\ dict_get "imageId" (FMInstanceCreator.data s) = Some image_id
               /\ (exists n,
                     dict_get "dssNodeType" (FMInstanceCreator.data s) = Some n
                     /\ node_type_ok n)
               /\ FMInstanceCreator.cls s = cl
               /\ FMInstanceCreator.client s = client) final).
  { apply instance_chain_invariant.
    - intros c s [H1 [H2 [H3 [H4 [H5 [H6 H7]]]]]].
      destruct (InstanceSetter_same_creator c s) as [Ecls Eclient].
      assert (Hother : forall k,
                 In k ["label"; "instanceSettingsTemplateId";
                       "virtualNetworkId"; "imageId"] ->
                 ~ In k (InstanceSetter.keys (InstanceSetter.method_of c))).
      { intros k Hk Hin.
        destruct c; cbn in Hin, Hk;
          repeat destruct Hk as [Hk|Hk]; subst;
          repeat destruct Hin as [Hin|Hin]; try discriminate; assumption. }
      rewrite !InstanceSetter_frame by (apply Hother; simpl; tauto).
      repeat split; try assumption; try congruence.
      apply InstanceSetter_node_type. exact H5.
    - subst made. repeat split. exists (JStr "design").
      split; [reflexivity | left; reflexivity]. }
  destruct Inv as [H1 [H2 [H3 [H4 [H5 [H6 H7]]]]]].
  repeat split; try assumption.
  intros w. rewrite <- H7. apply FMInstanceCreator_create_issues.
Qed.

(** X8. No setter of a creator, of an instance or of a template, ever
    removes a key or touches the label: through any chain of setters,
    returning or raising, every key the creator held is still bound, and
    the label is the one it held. *)
Theorem setter_chains_remove_nothing :
  (forall calls (self : FMInstanceCreator.t),
     let final := snd (instance_chain calls self) in
     (forall k,
        dict_get k (FMInstanceCreator.data self) <> None ->
        dict_get k (FMInstanceCreator.data final) <> None)
     /\ dict_get "label" (FMInstanceCreator.data final)
        = dict_get "label" (FMInstanceCreator.data self))
  /\ (forall calls (self : FMInstanceSettingsTemplateCreator.t),
        let final := snd (template_chain calls self) in
        (forall k,
           dict_get k (FMInstanceSettingsTemplateCreator.data self) <> None ->
           dict_get k (FMInstanceSettingsTemplateCreator.data final) <> None)
        /\ dict_get "label" (FMInstanceSettingsTemplateCreator.data final)
           = dict_get "label" (FMInstanceSettingsTemplateCreator.data self)
        /\ FMInstanceSettingsTemplateCreator.cls final
           = FMInstanceSettingsTemplateCreator.cls self
        /\ FMInstanceSettingsTemplateCreator.client final
           = FMInstanceSettingsTemplateCreator.client self).
Proof.
  split.
  - intros calls self final. subst final.
    apply (instance_chain_invariant calls self
             (fun s =>
                (forall k,
                   dict_get k (FMInstanceCreator.data self) <> None ->
                   dict_get k (FMInstanceCreator.data s) <> None)
                /\ dict_get "label" (FMInstanceCreator.data s)
                   = dict_get "label" (FMInstanceCreator.data self))).
    + intros c s [Hk Hl]. split.
      * intros k H. apply InstanceSetter_keeps_keys. apply Hk. exact H.
      * rewrite InstanceSetter_frame; [exact Hl|].
        destruct c; cbn; intros H; repeat destruct H as [H|H];
          discriminate || exact H.
    + split; [intros k H; exact H | reflexivity].
  - intros calls self final. subst final.
    apply (template_chain_invariant calls self
             (fun s =>
                (forall k,
                   dict_get k (FMInstanceSettingsTemplateCreator.data self)
                   <> None ->
                   dict_get k (FMInstanceSettingsTemplateCreator.data s)
                   <> None)
                /\ dict_get "label" (FMInstanceSettingsTemplateCreator.data s)
                   = dict_get "label"
                       (FMInstanceSettingsTemplateCreator.data self)
                /\ FMInstanceSettingsTemplateCreator.cls s
                   = FMInstanceSettingsTemplateCreator.cls self
                /\ FMInstanceSettingsTemplateCreator.client s
                   = FMInstanceSettingsTemplateCreator.client self)).
    + intros c s [Hk [Hl [Hc Hcl]]].
      destruct (TemplateSetter_same_creator c s) as [Ecls Eclient].
      split; [|split; [|split; congruence]].
      * intros k H. apply TemplateSetter_keeps_keys. apply Hk. exact H.
      * rewrite TemplateSetter_frame; [exact Hl|].
        destruct c; cbn; intros H; repeat destruct H as [H|H];
          discriminate || exact H.
    + repeat split. intros k H. exact H.
Qed.

End ChainClaims.

(** X8, on an example: choosing the key pair mode with an inline secret
    and then again with the default storage mode leaves the secret of
    the first call in the body. *)
Lemma setter_chains_remove_nothing_example :
  let self :=
    FMInstanceSettingsTemplateCreator.__init__ AWS example_client (JStr "t") in
  let first :=
    TemplateSetter.Keypair_aws_api_access_mode (JStr "AKIA")
      (Some (JStr "INLINE_ENCRYPTED")) (Some (JStr "secret")) None None in
  let second :=
    TemplateSetter.Keypair_aws_api_access_mode (JStr "AKIA") None None None
      None in
  dict_get "dataikuAwsSecretAccessKey"
    (FMInstanceSettingsTemplateCreator.data
       (snd (template_chain [second]
               (snd (template_chain [first] self)))))
  <> None.
Proof.
  intros self first second.
  destruct (@setter_chains_remove_nothing) as [_ H].
  destruct (H [second] (snd (template_chain [first] self))) as [Hk _].
  apply Hk. discriminate.
Defined.

(** ** The key pair mode of a template *)

(** X9. With the storage mode omitted or given as [NONE],
    [with_keypair_aws_api_access_mode] on an AWS template creator
    returns after assigning the access mode [KEYPAIR] and the storage
    mode [NONE] only: the access key id it was given, like the secret,
    the secret name and the region, is not stored. *)
Theorem keypair_mode_NONE_stores_no_key :
  forall aws_access_key_id mode secret name region
         (self : FMInstanceSettingsTemplateCreator.t),
    FMInstanceSettingsTemplateCreator.cls self = AWS ->
    mode = None \/ mode = Some (JStr "NONE") ->
    let run :=
      FMInstanceSettingsTemplateCreator.with_keypair_aws_api_access_mode
        aws_access_key_id mode secret name region self in
    run
    = (Ok tt,
       FMInstanceSettingsTemplateCreator.mk AWS
         (dict_set "dataikuAwsKeypairStorageMode" (JStr "NONE")
            (dict_set "dataikuAwsAPIAccessMode" (JStr "KEYPAIR")
               (FMInstanceSettingsTemplateCreator.data self)))
         (FMInstanceSettingsTemplateCreator.client self))
    /\ dict_get "dataikuAwsAccessKeyId"
         (FMInstanceSettingsTemplateCreator.data (snd run))
       = dict_get "dataikuAwsAccessKeyId"
           (FMInstanceSettingsTemplateCreator.data self).
Proof.
  intros key mode secret name region [cl d client] Hcls Hmode run.
  cbn in Hcls. subst cl run.
  assert (E : FMInstanceSettingsTemplateCreator.with_keypair_aws_api_access_mode
                key mode secret name region
                (FMInstanceSettingsTemplateCreator.mk AWS d client)
              = (Ok tt,
                 FMInstanceSettingsTemplateCreator.mk AWS
                   (dict_set "dataikuAwsKeypairStorageMode" (JStr "NONE")
                      (dict_set "dataikuAwsAPIAccessMode" (JStr "KEYPAIR") d))
                   client))
    by (destruct Hmode as [-> | ->]; reflexivity).
  rewrite E. split; [reflexivity|].
  cbn [snd FMInstanceSettingsTemplateCreator.data].
  rewrite !dict_get_set. reflexivity.
Qed.

(** X9, on an example: the key id of the call is not in the body. *)
Lemma keypair_mode_NONE_example :
  dict_get "dataikuAwsAccessKeyId"
    (FMInstanceSettingsTemplateCreator.data
       (snd (FMInstanceSettingsTemplateCreator.with_keypair_aws_api_access_mode
               (JStr "AKIA") None None None None
               (FMInstanceSettingsTemplateCreator.__init__ AWS example_client
                  (JStr "t")))))
  = None.
Proof.
  destruct (keypair_mode_NONE_stores_no_key (JStr "AKIA") None None None None
              (FMInstanceSettingsTemplateCreator.__init__ AWS example_client
                 (JStr "t")) eq_refl (or_introl eq_refl)) as [_ H].
  rewrite H. reflexivity.
Defined.

(** X10. How [with_keypair_aws_api_access_mode] fails on an AWS template
    creator.  A storage mode that is not one of the three known raises
    [ValueError] before any assignment.  With [INLINE_ENCRYPTED] and no
    secret, or [AWS_SECRETS_MANAGER] and no secret name, it raises
    [ValueError] after it has assigned the access mode, the storage mode
    and the access key id: the creator is left with these three. *)
Theorem keypair_mode_failures :
  forall aws_access_key_id mode secret name region
         (self : FMInstanceSettingsTemplateCreator.t),
    FMInstanceSettingsTemplateCreator.cls self = AWS ->
    let given := default mode (JStr "NONE") in
    let run :=
      FMInstanceSettingsTemplateCreator.with_keypair_aws_api_access_mode
        aws_access_key_id mode secret name region self in
    let partly :=
      FMInstanceSettingsTemplateCreator.mk AWS
        (dict_set "dataikuAwsAccessKeyId" aws_access_key_id
           (dict_set "dataikuAwsKeypairStorageMode" given
              (dict_set "dataikuAwsAPIAccessMode" (JStr "KEYPAIR")
                 (FMInstanceSettingsTemplateCreator.data self))))
        (FMInstanceSettingsTemplateCreator.client self) in
    (given <> JStr "NONE" -> given <> JStr "INLINE_ENCRYPTED" ->
     given <> JStr "AWS_SECRETS_MANAGER" ->
     is_ValueError (fst run) = true /\ snd run = self)
    /\ (given = JStr "INLINE_ENCRYPTED" -> default secret JNull = JNull ->
        is_ValueError (fst run) = true /\ snd run = partly)
    /\ (given = JStr "AWS_SECRETS_MANAGER" -> default name JNull = JNull ->
        is_ValueError (fst run) = true /\ snd run = partly).
Proof.
  intros key mode secret name region [cl d client] Hcls given run partly.
  cbn in Hcls. subst cl run partly.
  unfold FMInstanceSettingsTemplateCreator.with_keypair_aws_api_access_mode.
  cbv zeta. fold given.
  unfold FMInstanceSettingsTemplateCreator.aws_only, bind, get.
  cbn [FMInstanceSettingsTemplateCreator.cls fst snd].
  split; [|split].
  - intros N1 N2 N3.
    assert (E : py_in given ["NONE"; "INLINE_ENCRYPTED"; "AWS_SECRETS_MANAGER"]
                = false).
    { destruct given as [| | |s| |]; try reflexivity. simpl.
      destruct (String.eqb_spec s "NONE") as [->|]; [contradiction|].
      destruct (String.eqb_spec s "INLINE_ENCRYPTED") as [->|]; [contradiction|].
      destruct (String.eqb_spec s "AWS_SECRETS_MANAGER") as [->|];
        [contradiction|reflexivity]. }
    rewrite E. split; reflexivity.
  - intros -> ->. split; reflexivity.
  - intros -> ->. split; reflexivity.
Qed.

(** X10, on an example: the inline mode without a secret. *)
Lemma keypair_mode_failures_example :
  map fst
    (FMInstanceSettingsTemplateCreator.data
       (snd (FMInstanceSettingsTemplateCreator.with_keypair_aws_api_access_mode
               (JStr "AKIA") (Some (JStr "INLINE_ENCRYPTED")) None None None
               (FMInstanceSettingsTemplateCreator.__init__ AWS example_client
                  (JStr "t")))))
  = ["label"; "dataikuAwsAPIAccessMode"; "dataikuAwsKeypairStorageMode";
     "dataikuAwsAccessKeyId"].
Proof.
  destruct (keypair_mode_failures (JStr "AKIA")
              (Some (JStr "INLINE_ENCRYPTED")) None None None
              (FMInstanceSettingsTemplateCreator.__init__ AWS example_client
                 (JStr "t")) eq_refl) as [_ [H _]].
  destruct (H eq_refl eq_refl) as [_ E].
  rewrite E. reflexivity.
Defined.

(** ** The handles, beyond [save] *)

Section HandleExtras.
Context {R : Runtime}.

(** X11. [add_setup_action] on a template whose snapshot is an object
    with a list under [setupActions] appends the action at the end of
    that list and saves: the PUT carries the extended list.  When the key
    is missing it raises [KeyError], when the value under it is no list
    [AttributeError], when the snapshot is no object [TypeError]; in
    these cases the handle is unchanged and no request is issued. *)
Theorem add_setup_action_appends_then_saves :
  forall (self : FMInstanceSettingsTemplate.t) c w setup_action,
    FMInstanceSettingsTemplate.client self = FMClient_object c ->
    let run := FMInstanceSettingsTemplate.add_setup_action setup_action (self, w) in
    let path :=
      "/instance-settings-templates/"
        ++ py_str (FMInstanceSettingsTemplate.id self) in
    match FMInstanceSettingsTemplate.ist_data self with
    | JDict d =>
        match dict_get "setupActions" d with
        | Some (JList actions) =>
            let edited :=
              JDict (dict_set "setupActions"
                       (JList (actions ++ [setup_action])%list) d) in
            run
            = FMInstanceSettingsTemplate.save
                (FMInstanceSettingsTemplate.mk
                   (FMInstanceSettingsTemplate.client self)
                   (FMInstanceSettingsTemplate.id self) edited, w)
            /\ (issued w (snd (snd run))
                  [tenant_request c "PUT" path (Some edited)]
                \/ issued w (snd (snd run))
                     [tenant_request c "PUT" path (Some edited);
                      tenant_request c "GET" path None])
        | Some _ => run = (Raise (AttributeError "append"), (self, w))
        | None => run = (Raise (KeyError "setupActions"), (self, w))
        end
    | _ => run = (Raise (TypeError ""), (self, w))
    end.
Proof.
  intros [client i data] c w a Hc run path.
  cbn [FMInstanceSettingsTemplate.client] in Hc.
  cbn [FMInstanceSettingsTemplate.id] in path. subst client run.
  cbn [FMInstanceSettingsTemplate.ist_data].
  unfold FMInstanceSettingsTemplate.add_setup_action.
  rewrite bind_self.
  cbn [FMInstanceSettingsTemplate.ist_data FMInstanceSettingsTemplate.client
       FMInstanceSettingsTemplate.id].
  destruct data as [| | | | |d]; try reflexivity.
  unfold py_getitem.
  destruct (dict_get "setupActions" d) as [[| | | |actions|]|]; try reflexivity.
  split; [reflexivity|].
  change (bind (of_res (Ok (JList actions))) _ _)
    with (FMInstanceSettingsTemplate.save
            (FMInstanceSettingsTemplate.mk (FMClient_object c) i
               (JDict (dict_set "setupActions" (JList (actions ++ [a])%list) d)),
             w)).
  rewrite (FMInstanceSettingsTemplate_save_run
             (FMInstanceSettingsTemplate.mk (FMClient_object c) i
                (JDict (dict_set "setupActions"
                          (JList (actions ++ [a])%list) d)))
             c w eq_refl).
  cbn [FMInstanceSettingsTemplate.id FMInstanceSettingsTemplate.ist_data].
  fold path.
  pose proof (save_run_issues c path
                (JDict (dict_set "setupActions" (JList (actions ++ [a])%list) d))
                w) as I.
  cbv zeta in I.
  destruct (save_run c path
              (JDict (dict_set "setupActions" (JList (actions ++ [a])%list) d))
              w) as [[v|e] w']; exact I.
Qed.

Lemma same_identity_refl : forall h, same_identity h h.
Proof.
  intros h. repeat split.
Qed.

Lemma same_identity_trans :
  forall h1 h2 h3,
    same_identity h1 h2 -> same_identity h2 h3 -> same_identity h1 h3.
Proof.
  unfold same_identity. intros h1 h2 h3 [A [B C]] [D [E F]].
  repeat split; congruence.
Qed.

Lemma same_identity_bind :
  forall A B (m : M (FMInstance.t * world) A)
         (f : A -> M (FMInstance.t * world) B),
    (forall s w, same_identity s (fst (snd (m (s, w))))) ->
    (forall x s w, same_identity s (fst (snd (f x (s, w))))) ->
    forall s w, same_identity s (fst (snd (bind m f (s, w)))).
Proof.
  intros A B m f Hm Hf s w. unfold bind. specialize (Hm s w).
  destruct (m (s, w)) as [[x|e] [s1 w1]]; cbn [fst snd] in *.
  - eapply same_identity_trans; [exact Hm | apply Hf].
  - exact Hm.
Qed.

Lemma save_same_identity :
  forall s (w : world), same_identity s (fst (snd (FMInstance.save (s, w)))).
Proof.
  intros [cl [c|cc dd cl'] d i] w; unfold FMInstance.save; unfold_monad;
    cbn [fst snd FMInstance.client FMInstance.cls FMInstance.id
         FMInstance.instance_data];
    unfold call_perform_tenant_empty, call_perform_tenant_json;
    [|apply same_identity_refl].
  destruct_call FMClient._perform_tenant_empty; [|apply same_identity_refl].
  cbn [fst snd].
  destruct_call FMClient._perform_tenant_json; repeat split.
Qed.

Lemma set_instance_data_same_identity :
  forall key x s (w : world),
    same_identity s (fst (snd (FMInstance.set_instance_data key x (s, w)))).
Proof.
  intros key x s w. rewrite set_instance_data_run.
  destruct (py_setitem (FMInstance.instance_data s) key x); repeat split.
Qed.

Lemma action_leaves_the_handle :
  forall self (w : world) action,
    fst (snd (bind self_
                (fun self : FMInstance.t =>
                   bind (io (call_perform_tenant_json (FMInstance.client self)
                               "GET" (FMInstance.action_path self action)
                               None None None None))
                     (fun future =>
                        ret (FMFuture.from_resp (FMInstance.client self) future)))
                (self, w)))
    = self.
Proof.
  intros self w action. unfold_monad. cbn [fst snd].
  destruct (call_perform_tenant_json (FMInstance.client self) "GET"
              (FMInstance.action_path self action) None None None None w)
    as [[v|e] w']; reflexivity.
Qed.

(** X12. No method of an instance handle changes what the handle
    stands for.  [reprovision], [deprovision], [restart_dss] and [delete]
    leave the handle exactly as it was; [save] and the [set_*] methods
    may change the snapshot but never the class, the client or the id,
    whatever the server answers (the id stays the one read at
    construction even if the answer to the GET carries another). *)
Theorem instance_handle_identity_is_fixed :
  forall (self : FMInstance.t) (w : world),
    fst (snd (FMInstance.reprovision (self, w))) = self
    /\ fst (snd (FMInstance.deprovision (self, w))) = self
    /\ fst (snd (FMInstance.restart_dss (self, w))) = self
    /\ fst (snd (FMInstance.delete (self, w))) = self
    /\ same_identity self (fst (snd (FMInstance.save (self, w))))
    /\ (forall enable period keep,
          same_identity self
            (fst (snd (FMInstance.set_automated_snapshots enable period keep
                         (self, w)))))
    /\ (forall pem_data,
          same_identity self
            (fst (snd (FMInstance.set_custom_certificate pem_data (self, w)))))
    /\ (forall enable ip_id,
          same_identity self
            (fst (snd (FMInstance.set_elastic_ip enable ip_id (self, w))))).
Proof.
  intros self w.
  repeat (split; [apply action_leaves_the_handle|]).
  split; [apply save_same_identity|].
  assert (Hset : forall key x (rest : M (FMInstance.t * world) unit),
             (forall s w, same_identity s (fst (snd (rest (s, w))))) ->
             forall s w,
               same_identity s
                 (fst (snd (bind (FMInstance.set_instance_data key x)
                              (fun _ => rest) (s, w))))).
  { intros key x rest Hrest. apply same_identity_bind.
    - apply set_instance_data_same_identity.
    - intros _. exact Hrest. }
  split; [|split].
  - intros enable period keep. unfold FMInstance.set_automated_snapshots.
    cbv zeta. repeat apply Hset. apply save_same_identity.
  - intros pem_data. unfold FMInstance.set_custom_certificate.
    apply Hset. apply save_same_identity.
  - intros enable ip_id. unfold FMInstance.set_elastic_ip. rewrite bind_self.
    destruct (FMInstance.cls self).
    + apply same_identity_refl.
    + repeat apply Hset. apply save_same_identity.
    + repeat apply Hset. apply save_same_identity.
Qed.

End HandleExtras.

(** X11, on an example: an authorized key added to the example template,
    whose list of actions is empty; the PUT carries the list of one
    action. *)
Lemma add_setup_action_example :
  let action := JDict [("type", JStr "ADD_AUTHORIZED_KEY")] in
  map req_data
    (sent (snd (snd (@FMInstanceSettingsTemplate.add_setup_action
                       (example_runtime answer_ok) action
                       (example_template, fresh_world answer_ok)))))
  = [Some (render (JDict [("id", JStr "ist-1");
                          ("setupActions", JList [action])]));
     None].
Proof.
  intros action.
  pose proof (@add_setup_action_appends_then_saves (example_runtime answer_ok)
                example_template example_client (fresh_world answer_ok) action
                eq_refl) as H.
  cbv zeta in H. cbn [FMInstanceSettingsTemplate.ist_data example_template] in H.
  change (dict_get "setupActions"
            [("id", JStr "ist-1"); ("setupActions", JList [])])
    with (Some (JList [])) in H.
  destruct H as [E _]. rewrite E. reflexivity.
Defined.

Section HandleExtras2.
Context {R : Runtime}.

(** X13. [set_custom_certificate] on a handle that holds a client and
    whose snapshot is an object: the PUT carries the snapshot with the
    certificate.  If the call raises (the PUT or the GET failed), the
    handle is left with the edited snapshot, which the server may not
    have; if it returns, the snapshot is the answer to the GET, whether
    or not that holds the certificate.  On a snapshot that is no object
    the call raises [TypeError] at once. *)
Theorem set_custom_certificate_outcomes :
  forall (self : FMInstance.t) c w pem_data,
    FMInstance.client self = FMClient_object c ->
    let run := FMInstance.set_custom_certificate pem_data (self, w) in
    let path := "/instances/" ++ py_str (FMInstance.id self) in
    match FMInstance.instance_data self with
    | JDict d =>
        let edited := JDict (dict_set "sslCertificatePEM" pem_data d) in
        (issued w (snd (snd run)) [tenant_request c "PUT" path (Some edited)]
         \/ issued w (snd (snd run))
              [tenant_request c "PUT" path (Some edited);
               tenant_request c "GET" path None])
        /\ (forall e,
              fst run = Raise e ->
              FMInstance.instance_data (fst (snd run)) = edited)
        /\ (fst run = Ok tt ->
            exists put_answer srv get_answer,
              session_request (FMClient._session c) (remote w)
                (tenant_request c "PUT" path (Some edited))
              = (Answered put_answer, srv)
              /\ session_request (FMClient._session c) srv
                   (tenant_request c "GET" path None)
                 = (Answered get_answer, remote (snd (snd run)))
              /\ json_body get_answer
                 = Some (FMInstance.instance_data (fst (snd run))))
    | _ => run = (Raise (TypeError ""), (self, w))
    end.
Proof.
  intros [cl client data i] c w pem Hc run path.
  cbn [FMInstance.client] in Hc. cbn [FMInstance.id] in path.
  subst client run. cbn [FMInstance.instance_data].
  unfold FMInstance.set_custom_certificate, bind.
  rewrite set_instance_data_run.
  cbn [FMInstance.instance_data FMInstance.cls FMInstance.client FMInstance.id].
  destruct data as [| | | | |d]; try reflexivity.
  cbn [py_setitem].
  rewrite (FMInstance_save_run
             (FMInstance.mk cl (FMClient_object c)
                (JDict (dict_set "sslCertificatePEM" pem d)) i)
             c w eq_refl).
  cbn [FMInstance.instance_data FMInstance.cls FMInstance.client FMInstance.id].
  fold path.
  pose proof (save_run_issues c path
                (JDict (dict_set "sslCertificatePEM" pem d)) w) as I.
  cbv zeta in I.
  destruct (save_run c path (JDict (dict_set "sslCertificatePEM" pem d)) w)
    as [[v|e] w'] eqn:E; cbn [fst snd FMInstance.instance_data] in *.
  - split; [exact I|]. split; [discriminate|]. intros _.
    destruct (save_run_returns _ _ _ _ _ _ E)
      as [put_answer [srv [get_answer [Hput [Hget [Hj _]]]]]].
    exists put_answer, srv, get_answer. repeat split; assumption.
  - split; [exact I|]. split; [reflexivity|]. discriminate.
Qed.

(** X14. The handle [create] of an instance creator returns holds the
    client of the creator (unlike the handle of a template creator), is
    of the subclass of the creator's cloud, and has the id of the object
    the server answered; [save()] on it issues its PUT, and GET, through
    that client. *)
Theorem instance_create_returns_a_handle_on_the_client :
  forall (self : FMInstanceCreator.t) w h w',
    FMInstanceCreator.create self w = (Ok h, w') ->
    let c := FMInstanceCreator.client self in
    FMInstance.client h = FMClient_object c
    /\ FMInstance.cls h
       = match FMInstanceCreator.cls self with
         | AWS => FMInstance.FMAWSInstance
         | Azure => FMInstance.FMAzureInstance
         end
    /\ py_getitem (FMInstance.instance_data h) "id" = Ok (FMInstance.id h)
    /\ issued w w'
         [tenant_request c "POST" "/instances"
            (Some (JDict (FMInstanceCreator.data self)))]
    /\ forall w1,
         let path := "/instances/" ++ py_str (FMInstance.id h) in
         let put_ :=
           tenant_request c "PUT" path (Some (FMInstance.instance_data h)) in
         issued w1 (snd (snd (FMInstance.save (h, w1)))) [put_]
         \/ issued w1 (snd (snd (FMInstance.save (h, w1))))
              [put_; tenant_request c "GET" path None].
Proof.
  intros self w h w' H c.
  pose proof (FMInstanceCreator_create_issues self w) as I.
  rewrite H in I. cbn [snd] in I.
  unfold FMInstanceCreator.create in H. unfold_monad.
  destruct (FMClient._perform_tenant_json (FMInstanceCreator.client self)
              "POST" "/instances" None
              (Some (JDict (FMInstanceCreator.data self))) None None w)
    as [[instance|e] w1]; [|discriminate].
  unfold FMInstance.__init__ in H.
  destruct (py_getitem instance "id") as [i|] eqn:Hid; [|discriminate].
  injection H as <- <-.
  cbn [FMInstance.client FMInstance.cls FMInstance.instance_data FMInstance.id].
  split; [reflexivity|]. split; [reflexivity|]. split; [exact Hid|].
  split; [exact I|].
  intros w2. set (path := "/instances/" ++ py_str i).
  rewrite (FMInstance_save_run
             (FMInstance.mk
                match FMInstanceCreator.cls self with
                | AWS => FMInstance.FMAWSInstance
                | Azure => FMInstance.FMAzureInstance
                end (FMClient_object (FMInstanceCreator.client self)) instance i)
             c w2 eq_refl).
  cbn [FMInstance.instance_data FMInstance.id]. fold path.
  pose proof (save_run_issues c path instance w2) as J. cbv zeta in J.
  destruct (save_run c path instance w2) as [[v|e] w3]; exact J.
Qed.

End HandleExtras2.

(** X13, on an example: the server refuses every request with status
    500; the handle keeps the certificate it could not save. *)
Lemma set_custom_certificate_example :
  FMInstance.instance_data
    (fst (snd (@FMInstance.set_custom_certificate
                 (example_runtime (answer_with internal_error)) (JStr "PEM")
                 (example_instance, fresh_world (answer_with internal_error)))))
  = JDict [("id", JStr "i-1"); ("sslCertificatePEM", JStr "PEM")].
Proof.
  pose proof (@set_custom_certificate_outcomes
                (example_runtime (answer_with internal_error))
                example_instance example_client
                (fresh_world (answer_with internal_error)) (JStr "PEM") eq_refl)
    as H.
  cbv zeta in H. cbn [FMInstance.instance_data example_instance] in H.
  destruct H as [_ [H _]].
  apply (H (DataikuException "Unknown error: internal error")). reflexivity.
Defined.

(** X14, on an example: an instance created on the example client. *)
Lemma instance_create_example :
  let creator :=
    FMInstanceCreator.__init__ AWS example_client (JStr "dss") (JStr "ist-1")
      (JStr "vn-1") (JStr "dss-9.0.3-default") in
  let made :=
    @FMInstanceCreator.create (example_runtime answer_ok) creator
      (fresh_world answer_ok) in
  exists h,
    fst made = Ok h
    /\ FMInstance.client h = FMClient_object example_client
    /\ FMInstance.cls h = FMInstance.FMAWSInstance.
Proof.
  intros creator made.
  exists (FMInstance.mk FMInstance.FMAWSInstance (FMClient_object example_client)
            (JDict [("id", JStr "i-1"); ("rev", JInt 0)]) (JStr "i-1")).
  split; [reflexivity|].
  destruct (@instance_create_returns_a_handle_on_the_client
              (example_runtime answer_ok) creator (fresh_world answer_ok)
              (FMInstance.mk FMInstance.FMAWSInstance
                 (FMClient_object example_client)
                 (JDict [("id", JStr "i-1"); ("rev", JInt 0)]) (JStr "i-1"))
              (snd made) eq_refl) as [Hc [Hcls _]].
  split; [exact Hc | exact Hcls].
Defined.

(** ** Setup actions *)

(** X15. Every static constructor of [FMSetupAction] builds a dictionary
    whose [type] is the wire value of the member of [FMSetupActionType]
    it names, followed by [params], except [setup_k8s_and_spark], which
    has no [params].  [run_ansible_task] and [install_jdbc_driver] raise
    [AttributeError] exactly when their stage, respectively database
    type, is not a member of its enumeration; no other constructor
    raises.  [__init__] itself drops a [params] that is empty or
    otherwise false. *)
Theorem static_constructors_build_typed_actions :
  (forall c,
     match FMSetupAction.build c with
     | Ok action =>
         FMSetupAction.not_a_member c = false
         /\ exists d,
              action = JDict d
              /\ dict_get "type" d
                 = Some (FMSetupActionType.value (FMSetupAction.type_of c))
              /\ map fst d
                 = match c with
                   | FMSetupAction.Setup_k8s_and_spark => ["type"]
                   | _ => ["type"; "params"]
                   end
     | Raise e =>
         FMSetupAction.not_a_member c = true /\ e = AttributeError "value"
     end)
  /\ (forall t params,
        py_truthy (default params JNull) = false ->
        FMSetupAction.__init__ (IsMember t) params
        = Ok (JDict [("type", FMSetupActionType.value t)])).
Proof.
  split.
  - intros [k | [s|v] y | p | b h | [t|v] u a b c d e | ]; cbn;
      try (split; reflexivity);
      (split; [reflexivity|]); eexists; repeat split.
  - intros t params H. unfold FMSetupAction.__init__. cbn.
    rewrite H. reflexivity.
Qed.

(** X15, on an example: an empty dictionary of parameters is dropped. *)
Lemma static_constructors_example :
  FMSetupAction.__init__ (IsMember FMSetupActionType.SETUP_MEMORY_SETTINGS)
    (Some (JDict []))
  = Ok (JDict [("type", JStr "SETUP_MEMORY_SETTINGS")]).
Proof.
  destruct static_constructors_build_typed_actions as [_ H].
  apply (H FMSetupActionType.SETUP_MEMORY_SETTINGS (Some (JDict []))).
  reflexivity.
Defined.

(** X16. The wire values of each enumeration are pairwise distinct: a
    value names one member only, for [FMInstanceEncryptionMode],
    [FMSetupActionType], [FMSetupActionStage] and
    [FMSetupActionAddJDBCDriverDatabaseType]. *)
Theorem enumeration_values_are_distinct :
  (forall m1 m2 : FMInstanceEncryptionMode, value m1 = value m2 -> m1 = m2)
  /\ (forall m1 m2,
        FMSetupActionType.value m1 = FMSetupActionType.value m2 -> m1 = m2)
  /\ (forall m1 m2,
        FMSetupActionStage.value m1 = FMSetupActionStage.value m2 -> m1 = m2)
  /\ (forall m1 m2,
        FMSetupActionAddJDBCDriverDatabaseType.value m1
        = FMSetupActionAddJDBCDriverDatabaseType.value m2 ->
        m1 = m2).
Proof.
  repeat split; intros [] [] H; try reflexivity; discriminate H.
Qed.

(** X16, on an example: two members, two values. *)
Lemma enumeration_values_example :
  ~ (value NONE = value CUSTOM)
  /\ ~ (FMSetupActionType.value FMSetupActionType.RUN_ANSIBLE_TASKS
        = FMSetupActionType.value FMSetupActionType.INSTALL_JDBC_DRIVER).
Proof.
  destruct enumeration_values_are_distinct as [Hmode [Htype _]].
  split; intros H.
  - apply Hmode in H. discriminate H.
  - apply Htype in H. discriminate H.
Defined.

(** ** The construction of the client, on success *)

(** X17. A client that is constructed keeps the host, the keys, the
    cloud and the tenant id it was given; its session authenticates
    with the pair of the key id and the key secret; and the header store
    of the session is updated with the extra headers exactly as given,
    or not at all when there are none (how the store merges them, names
    that differ by case included, is the library's business).  The cloud
    is checked before the keys: with an unknown cloud the error is the
    one about the cloud even when a key is missing too. *)
Theorem FMClient_init_keeps_its_arguments :
  forall host api_key_id api_key_secret cloud tenant_id extra_headers,
    let made :=
      FMClient.__init__ host api_key_id api_key_secret cloud tenant_id
        extra_headers in
    (forall c,
       made = Ok c ->
       FMClient.host c = host
       /\ FMClient.api_key_id c = api_key_id
       /\ FMClient.api_key_secret c = api_key_secret
       /\ FMClient.cloud c = cloud
       /\ FMClient.__tenant_id c = tenant_id
       /\ auth (FMClient._session c) = Some (api_key_id, api_key_secret)
       /\ headers (FMClient._session c)
          = match extra_headers with
            | Some e => e
            | None => []
            end)
    /\ (py_in cloud ["AWS"; "Azure"] = false ->
        made
        = Raise (ValueError ("cloud should be either " ++ dq ++ "AWS" ++ dq
                               ++ " or " ++ dq ++ "Azure" ++ dq))).
Proof.
  intros host api_key_id api_key_secret cloud tenant_id extra_headers made.
  subst made. unfold FMClient.__init__. split.
  - intros c H.
    destruct (py_in cloud ["AWS"; "Azure"]); [|discriminate]. cbn [negb] in H.
    destruct (is_not_None api_key_id && is_not_None api_key_secret);
      [|discriminate].
    injection H as <-.
    cbn [FMClient.host FMClient.api_key_id FMClient.api_key_secret
         FMClient.cloud FMClient.__tenant_id FMClient._session].
    repeat (split; [reflexivity|]).
    destruct extra_headers as [e|]; cbn [auth headers]; split; reflexivity.
  - intros H. rewrite H. reflexivity.
Qed.

(** X17, on an example: two extra headers. *)
Lemma FMClient_init_example :
  exists c,
    FMClient.__init__ (JStr "https://fm.example.com") (JStr "id")
      (JStr "secret") (JStr "Azure") (JStr "main")
      (Some [("X-Request-Source", JStr "ci"); ("Accept", JStr "application/json")])
    = Ok c
    /\ auth (FMClient._session c) = Some (JStr "id", JStr "secret")
    /\ headers (FMClient._session c)
       = [("X-Request-Source", JStr "ci"); ("Accept", JStr "application/json")].
Proof.
  eexists. split; [reflexivity|].
  destruct (FMClient_init_keeps_its_arguments (JStr "https://fm.example.com")
              (JStr "id") (JStr "secret") (JStr "Azure") (JStr "main")
              (Some [("X-Request-Source", JStr "ci");
                     ("Accept", JStr "application/json")])) as [H _].
  destruct (H _ eq_refl) as [_ [_ [_ [_ [_ [Ha Hh]]]]]].
  split; [exact Ha | exact Hh].
Defined.

(** ** A failure of the transport *)

Section TransportFailure.
Context {R : Runtime}.

(** X18. Only an error status is translated.  When the session fails to
    get an answer (a connection error, a timeout), every variant of the
    call ends with that exception of the transport, not with a
    [DataikuException]; the request was handed to the session once. *)
Theorem transport_failure_is_not_translated :
  forall self method path params body files raw_body w srv,
    let prefixed :=
      "/tenants/" ++ py_str (FMClient.__tenant_id self) ++ path in
    (session_request (FMClient._session self) (remote w)
       (request_of self method path params body false files raw_body)
     = (Failed, srv) ->
     let w' :=
       mkWorld srv
         (sent w ++ [request_of self method path params body false files
                       raw_body])%list in
     FMClient._perform_http self method path params body false files raw_body w
     = (Raise RequestException, w')
     /\ FMClient._perform_json self method path params body files raw_body w
        = (Raise RequestException, w')
     /\ FMClient._perform_empty self method path params body files raw_body w
        = (Raise RequestException, w'))
    /\ (session_request (FMClient._session self) (remote w)
          (request_of self method prefixed params body false files raw_body)
        = (Failed, srv) ->
        let w' :=
          mkWorld srv
            (sent w ++ [request_of self method prefixed params body false files
                          raw_body])%list in
        FMClient._perform_tenant_json self method path params body files
          raw_body w
        = (Raise RequestException, w')
        /\ FMClient._perform_tenant_empty self method path params body files
             raw_body w
           = (Raise RequestException, w')).
Proof.
  intros self method path params body files raw_body w srv prefixed.
  split; intros H w'.
  - pose proof (perform_http_failed _ _ _ _ _ _ _ _ _ _ H) as E.
    split; [exact E|].
    unfold FMClient._perform_json, FMClient._perform_empty, bind.
    rewrite E. split; reflexivity.
  - pose proof (perform_http_failed _ _ _ _ _ _ _ _ _ _ H) as E.
    unfold FMClient._perform_tenant_json, FMClient._perform_tenant_empty,
      FMClient._perform_json, FMClient._perform_empty, bind.
    fold prefixed. rewrite E. split; reflexivity.
Qed.

End TransportFailure.

(** X18, on an example: a server that cannot be reached. *)
Lemma transport_failure_example :
  fst (@FMInstance.reprovision (example_runtime (fun _ _ => Failed))
         (example_instance, fresh_world (fun _ _ => Failed)))
  = Raise RequestException.
Proof.
  destruct (@transport_failure_is_not_translated
              (example_runtime (fun _ _ => Failed)) example_client "GET"
              "/instances/i-1/actions/reprovision" None None None None
              (fresh_world (fun _ _ => Failed)) 1%nat) as [_ H].
  destruct (H eq_refl) as [E _].
  unfold FMInstance.reprovision. rewrite bind_self.
  unfold bind, io. cbn [fst snd FMInstance.client example_instance].
  unfold call_perform_tenant_json.
  change (FMInstance.action_path example_instance "reprovision")
    with "/instances/i-1/actions/reprovision".
  rewrite E. reflexivity.
Defined.

(** ** Calling a setter twice *)

(** X19. Calling a setter again overrides the first call: when both
    calls return, [with_x(a).with_x(b)] leaves the bindings that
    [with_x(b)] alone leaves.  This holds for every setter of an
    instance creator and for every setter of a template creator except
    [with_keypair_aws_api_access_mode], whose second call keeps what the
    first stored under keys it does not assign itself. *)
Theorem calling_a_setter_again_overrides :
  (forall x y (self : FMInstanceCreator.t) sxy sy,
     InstanceSetter.method_of x = InstanceSetter.method_of y ->
     (InstanceSetter.run x ;; InstanceSetter.run y) self = (Ok tt, sxy) ->
     InstanceSetter.run y self = (Ok tt, sy) ->
     dict_equiv (FMInstanceCreator.data sxy) (FMInstanceCreator.data sy))
  /\ (forall x y (self : FMInstanceSettingsTemplateCreator.t) sxy sy,
        TemplateSetter.method_of x = TemplateSetter.method_of y ->
        TemplateSetter.method_of x
        <> TemplateSetter.with_keypair_aws_api_access_mode ->
        (TemplateSetter.run x ;; TemplateSetter.run y) self = (Ok tt, sxy) ->
        TemplateSetter.run y self = (Ok tt, sy) ->
        dict_equiv (FMInstanceSettingsTemplateCreator.data sxy)
                   (FMInstanceSettingsTemplateCreator.data sy)).
Proof.
  split.
  - intros x y [cl client d] sxy sy Hm Hxy Hy. revert Hxy Hy.
    destruct x, y; try discriminate Hm; clear Hm;
      destruct cl; cbn [InstanceSetter.run]; unfold bind at 1;
      open_setter; intros Hxy Hy;
      try discriminate; revert Hxy; open_setter; intros Hxy;
      try discriminate;
      inversion Hxy; inversion Hy; subst;
      cbn [FMInstanceCreator.data]; same_bindings dict_get_set.
  - intros x y [cl d client] sxy sy Hm Hk Hxy Hy. revert Hxy Hy.
    destruct x, y; try discriminate Hm; clear Hm;
      try (exfalso; apply Hk; reflexivity); clear Hk;
      destruct cl; cbn [TemplateSetter.run]; unfold bind at 1;
      open_setter; intros Hxy Hy;
      try discriminate; revert Hxy; open_setter; intros Hxy;
      try discriminate;
      inversion Hxy; inversion Hy; subst;
      cbn [FMInstanceSettingsTemplateCreator.data]; same_bindings dict_get_set.
Qed.

(** X19, on an example: the node type chosen twice. *)
Lemma calling_a_setter_again_example :
  let self :=
    FMInstanceCreator.__init__ AWS example_client (JStr "dss") (JStr "ist-1")
      (JStr "vn-1") (JStr "dss-9.0.3-default") in
  let x := InstanceSetter.Dss_node_type (JStr "automation") in
  let y := InstanceSetter.Dss_node_type (JStr "deployer") in
  dict_get "dssNodeType"
    (FMInstanceCreator.data
       (snd ((InstanceSetter.run x ;; InstanceSetter.run y) self)))
  = Some (JStr "deployer").
Proof.
  intros self x y.
  destruct calling_a_setter_again_overrides as [H _].
  rewrite (H x y self
             (snd ((InstanceSetter.run x ;; InstanceSetter.run y) self))
             (snd (InstanceSetter.run y self))
             eq_refl eq_refl eq_refl "dssNodeType").
  reflexivity.
Defined.
